(** * TrafficPatternClassifier: a shallow embedding and its properties

    The development follows [src/TrafficPatternClassifier.py].

    Conventions of the embedding:
    - a Python [int] is a [Z];
    - a [datetime] is an instant counted in microseconds (the resolution of
      Python's [datetime]) and a [timedelta] a number of microseconds, so
      that datetime arithmetic and comparison are exact integer operations;
    - a Python [float] is the rational number it stands for, a [Q]; the
      rounding of binary64 operations is not modelled (a quotient of two
      integers is the exact quotient), and NaN is the [None] of an option;
    - a standard deviation, which needs a square root, is a real number;
    - an exception is a value of [exn] carried by the [result] monad;
    - a [dict] with a fixed set of keys is a record, a [DataFrame] is the
      list of its column names together with the list of its rows;
    - the scikit-learn estimators are parameters, the attributes of the
      classifier are passed from call to call, and what [datetime.now()]
      returns is an argument. *)

From Stdlib Require Import ZArith QArith Qreals Lia List Reals Lra Psatz.
From Stdlib Require Floats Uint63.
From stdpp Require Import gmap strings list sorting pretty.
Import ListNotations.

Local Open Scope Z_scope.

(** ** Python values and exceptions *)

Inductive exn : Type :=
  | KeyError (key : string)
  | ValueError (msg : string).

Inductive result (A : Type) : Type :=
  | Ok (a : A)
  | Raise (e : exn).
Arguments Ok {A} a.
Arguments Raise {A} e.

#[global] Instance result_ret : MRet result := fun A a => Ok a.

#[global] Instance result_bind : MBind result := fun A B k c =>
  match c with
  | Ok a => k a
  | Raise e => Raise e
  end.

#[global] Instance result_fmap : FMap result := fun A B f c =>
  match c with
  | Ok a => Ok (f a)
  | Raise e => Raise e
  end.

Definition datetime := Z.
Definition timedelta := Z.

(** [timedelta(minutes=m)] *)
Definition timedelta_minutes (m : Z) : timedelta := m * 60000000.

(** [ts.timestamp()]: seconds since the epoch. *)
Definition timestamp_seconds (ts : datetime) : Q := inject_Z ts / 1000000.

(** [len(xs)] *)
Definition len {A : Type} (xs : list A) : Z := Z.of_nat (length xs).

(** [sum(1 for x in xs if p(x))] *)
Fixpoint sum_1_for {A : Type} (p : A -> bool) (xs : list A) : Z :=
  match xs with
  | [] => 0
  | x :: xs' => (if p x then 1 else 0) + sum_1_for p xs'
  end.

(** [len(set(xs))] for strings. *)
Definition len_set (xs : list string) : Z :=
  Z.of_nat (size (list_to_set xs : gset string)).

Definition Qltb (x y : Q) : bool := negb (Qle_bool y x).
Definition Qgtb (x y : Q) : bool := Qltb y x.

Definition Qsum (xs : list Q) : Q := fold_right Qplus 0%Q xs.

(** [np.mean(xs)] on a non-empty array. *)
Definition np_mean (xs : list Q) : Q := (Qsum xs / inject_Z (len xs))%Q.

(** [np.diff(xs)]: [xs[i+1] - xs[i]]. *)
Fixpoint np_diff (xs : list Q) : list Q :=
  match xs with
  | x :: (y :: _) as xs' => (y - x)%Q :: np_diff xs'
  | _ => []
  end.

(** ** Log entries and feature vectors *)

(** One element of [logs]; [log_path] is [log['request']['path']]. *)
Record Log : Type := {
  log_ip : string;
  log_timestamp : datetime;
  log_path : string;
  log_status_code : Z;
  log_bytes : Z;
  log_user_agent : string
}.

(** The [feature] dictionary; [requests_m] holds the entries
    [requests_{window}m], keyed by [window], in insertion order. *)
Record Feature : Type := {
  ip : string;
  request_count : Z;
  avg_time_between_requests : Q;
  std_time_between_requests : Q;
  unique_paths_ratio : Q;
  success_ratio : Q;
  error_ratio : Q;
  bytes_transferred_mean : Q;
  user_agent_count : Z;
  requests_m : list (Z * Z)
}.

Definition time_windows : list Z := [1; 5; 15; 30; 60].

Definition requests_key (window : Z) : string :=
  "requests_" +:+ pretty window +:+ "m".

(** The keys of a [feature] dictionary, in insertion order. *)
Definition feature_keys : list string :=
  ["ip"; "request_count"; "avg_time_between_requests";
   "std_time_between_requests"; "unique_paths_ratio"; "success_ratio";
   "error_ratio"; "bytes_transferred_mean"; "user_agent_count"]
  ++ map requests_key time_windows.

(** ** Data frames *)

Record DataFrame (A : Type) : Type := {
  columns : list string;
  records : list A
}.
Arguments columns {A} d.
Arguments records {A} d.

(** [pd.DataFrame(features)]: the columns are the keys of the dictionaries,
    so a frame built from no dictionary has no column. *)
Definition pd_DataFrame (features : list Feature) : DataFrame Feature :=
  {| columns := match features with [] => [] | _ :: _ => feature_keys end;
     records := features |}.

(** [df[col]], the column as the list of its values; [KeyError] when the
    frame has no such column. *)
Definition get_column {A B : Type} (df : DataFrame A) (col : string)
    (value : A -> B) : result (list B) :=
  if bool_decide (col ∈ columns df) then Ok (map value (records df))
  else Raise (KeyError col).


(** ** Sliding windows *)

(** The chained comparison [window_start <= ts <= window_end]. *)
Definition in_window (window_start window_end ts : datetime) : bool :=
  (window_start <=? ts) && (ts <=? window_end).

(** One turn of the loop of [_count_requests_in_window]: the window that
    ends at [timestamps[i]], its count, and the running maximum. *)
Definition window_step (timestamps : list datetime) (window : timedelta)
    (max_count : Z) (window_end : datetime) : Z :=
  let window_start := window_end - window in
  let count := sum_1_for (in_window window_start window_end) timestamps in
  Z.max max_count count.

(** [_count_requests_in_window(timestamps, window_minutes)]; the loop over
    [range(len(timestamps))] reads [timestamps[i]] only, so it is a left
    fold over the list itself. *)
Definition _count_requests_in_window (timestamps : list datetime)
    (window_minutes : Z) : Z :=
  match timestamps with
  | [] => 0
  | _ :: _ =>
      let max_count := 0 in
      let window := timedelta_minutes window_minutes in
      fold_left (window_step timestamps window) timestamps max_count
  end.

(** The number of timestamps in the closed window [[t - w, t]], and in the
    window [(t - w, t]] that leaves its start out. *)
Definition closed_count (timestamps : list datetime) (w : timedelta)
    (t : datetime) : Z :=
  sum_1_for (fun ts => (t - w <=? ts) && (ts <=? t)) timestamps.

Definition half_open_count (timestamps : list datetime) (w : timedelta)
    (t : datetime) : Z :=
  sum_1_for (fun ts => (t - w <? ts) && (ts <=? t)) timestamps.

(** [m] is the maximum of [f] over the elements of [ts]. *)
Definition is_max_over (f : datetime -> Z) (ts : list datetime) (m : Z) : Prop :=
  (forall t, In t ts -> f t <= m) /\ (exists t, In t ts /\ m = f t).

(** ** Feature extraction *)

(** [feature[f'requests_{window}m'] = count] *)
Definition set_requests (feature : Feature) (window count : Z) : Feature :=
  {| ip := ip feature;
     request_count := request_count feature;
     avg_time_between_requests := avg_time_between_requests feature;
     std_time_between_requests := std_time_between_requests feature;
     unique_paths_ratio := unique_paths_ratio feature;
     success_ratio := success_ratio feature;
     error_ratio := error_ratio feature;
     bytes_transferred_mean := bytes_transferred_mean feature;
     user_agent_count := user_agent_count feature;
     requests_m := requests_m feature ++ [(window, count)] |}.

(** [feature[f'requests_{window}m']]; 0 stands for a missing key. *)
Fixpoint get_requests (entries : list (Z * Z)) (window : Z) : Z :=
  match entries with
  | [] => 0
  | (w, count) :: rest => if w =? window then count else get_requests rest window
  end.

(** The logs of one address and its timestamps. *)
Definition logs_of (logs : list Log) (addr : string) : list Log :=
  filter (fun log => log_ip log = addr) logs.

Definition timestamps_of (logs : list Log) (addr : string) : list datetime :=
  map log_timestamp (logs_of logs addr).

Section Extraction.

(** [np.std], the standard deviation of a non-empty array of floats. *)
Variable np_std : list Q -> Q.

(** The body of the loop of [extract_features], for one address. *)
Definition extract_one (logs : list Log) (addr : string) : Feature :=
  let ip_logs := logs_of logs addr in
  let timestamps := merge_sort Z.le (map log_timestamp ip_logs) in
  let time_diffs := np_diff (map timestamp_seconds timestamps) in
  let requests := map log_path ip_logs in
  let unique_paths := len_set requests in
  let feature :=
    {| ip := addr;
       request_count := len ip_logs;
       avg_time_between_requests :=
         if len time_diffs >? 0 then np_mean time_diffs else 0%Q;
       std_time_between_requests :=
         if len time_diffs >? 0 then np_std time_diffs else 0%Q;
       unique_paths_ratio := (inject_Z unique_paths / inject_Z (len ip_logs))%Q;
       success_ratio :=
         (inject_Z (sum_1_for (fun log => log_status_code log <? 400) ip_logs)
          / inject_Z (len ip_logs))%Q;
       error_ratio :=
         (inject_Z (sum_1_for (fun log => log_status_code log >=? 400) ip_logs)
          / inject_Z (len ip_logs))%Q;
       bytes_transferred_mean := np_mean (map (fun log => inject_Z (log_bytes log)) ip_logs);
       user_agent_count := len_set (map log_user_agent ip_logs);
       requests_m := [] |} in
  fold_left
    (fun feature window =>
       let count := _count_requests_in_window timestamps window in
       set_requests feature window count)
    time_windows feature.

(** [set(log['ip'] for log in logs)], in the order the loop visits it. *)
Definition ip_set (logs : list Log) : list string :=
  elements (list_to_set (map log_ip logs) : gset string).

Definition extract_features (logs : list Log) : DataFrame Feature :=
  let features :=
    fold_left (fun features addr => features ++ [extract_one logs addr])
      (ip_set logs) [] in
  pd_DataFrame features.

End Extraction.

(** ** Pattern analysis *)

(** A row of [results_df]: the feature columns and the two label columns. *)
Record Result : Type := {
  feature :> Feature;
  anomaly_score : Z;
  cluster_label : Z
}.

(** The [metrics] dictionary. *)
Record Metrics : Type := {
  total_ips : Z;
  anomaly_count : Z;
  cluster_count : Z;
  noise_points : Z;
  timestamp : datetime
}.

Inductive dtype : Type := object | int64 | float64.

(** [features_df[col].dtype]. The two inter-arrival columns hold [int64]
    when every group has a single entry, which the test of
    [analyze_patterns] keeps as well. *)
Definition column_dtype (col : string) : dtype :=
  if bool_decide (col = "ip") then object
  else if bool_decide (col ∈ "request_count" :: "user_agent_count"
                             :: map requests_key time_windows) then int64
  else float64.

Definition dtype_in_int64_float64 (d : dtype) : bool :=
  match d with int64 | float64 => true | object => false end.

(** The entry of a numeric column in one row, as a float. *)
Definition column_value (col : string) (f : Feature) : Q :=
  if bool_decide (col = "request_count") then inject_Z (request_count f)
  else if bool_decide (col = "avg_time_between_requests") then avg_time_between_requests f
  else if bool_decide (col = "std_time_between_requests") then std_time_between_requests f
  else if bool_decide (col = "unique_paths_ratio") then unique_paths_ratio f
  else if bool_decide (col = "success_ratio") then success_ratio f
  else if bool_decide (col = "error_ratio") then error_ratio f
  else if bool_decide (col = "bytes_transferred_mean") then bytes_transferred_mean f
  else if bool_decide (col = "user_agent_count") then inject_Z (user_agent_count f)
  else match filter (fun w => requests_key w = col) time_windows with
       | w :: _ => inject_Z (get_requests (requests_m f) w)
       | [] => 0%Q
       end.

(** [features_df[feature_cols]] as a matrix, one line per row. *)
Definition select_columns (df : DataFrame Feature) (cols : list string)
    : list (list Q) :=
  map (fun f => map (fun col => column_value col f) cols) (records df).

(** [results_df[col] = values] for the two label columns: pandas raises
    [ValueError] when the length of the values is not that of the index. *)
Fixpoint zip_labels (rows : list Feature) (scores labels : list Z)
    : list Result :=
  match rows, scores, labels with
  | f :: rows', s :: scores', l :: labels' =>
      {| feature := f; anomaly_score := s; cluster_label := l |}
      :: zip_labels rows' scores' labels'
  | _, _, _ => []
  end.

Definition assign_labels (features_df : DataFrame Feature)
    (if_predictions dbscan_labels : list Z) : result (DataFrame Result) :=
  if negb (len if_predictions =? len (records features_df)) then
    Raise (ValueError "Length of values does not match length of index")
  else if negb (len dbscan_labels =? len (records features_df)) then
    Raise (ValueError "Length of values does not match length of index")
  else
    Ok {| columns := columns features_df ++ ["anomaly_score"; "cluster_label"];
          records := zip_labels (records features_df) if_predictions dbscan_labels |}.

(** [len(set(labels))] for integer labels. *)
Definition len_set_Z (xs : list Z) : Z :=
  Z.of_nat (size (list_to_set xs : gset Z)).

(** The constructor arguments of the two detectors. *)
Record IsolationForest : Type := {
  random_state : Z;
  contamination : Q
}.

Record DBSCAN : Type := {
  eps : Q;
  min_samples : Z
}.

Section Analysis.

(** What a fit leaves in an estimator: its fitted attributes. *)
Variables ScalerFit ForestFit ClusterFit : Type.

(** [StandardScaler().fit_transform], [IsolationForest(...).fit_predict]
    and [DBSCAN(...).fit_predict]: each fits afresh on the matrix it is
    given, from the constructor arguments of the estimator, and returns
    its fitted attributes with its output, or raises. *)
Variable scaler_fit_transform
  : list (list Q) -> result (ScalerFit * list (list Q)).
Variable isolation_forest_fit_predict
  : IsolationForest -> list (list Q) -> result (ForestFit * list Z).
Variable dbscan_fit_predict
  : DBSCAN -> list (list Q) -> result (ClusterFit * list Z).

(** The attributes of a [TrafficPatternClassifier]: the three estimators,
    each with what its last fit left, if any. *)
Record Classifier : Type := {
  scaler : option ScalerFit;
  isolation_forest : IsolationForest;
  isolation_forest_fit : option ForestFit;
  dbscan : DBSCAN;
  dbscan_fit : option ClusterFit
}.

(** [__init__(self)] *)
Definition __init__ : Classifier :=
  {| scaler := None;
     isolation_forest := {| random_state := 42; contamination := 0.1 |};
     isolation_forest_fit := None;
     dbscan := {| eps := 0.5; min_samples := 5 |};
     dbscan_fit := None |}.

Definition set_scaler (self : Classifier) (fit : ScalerFit) : Classifier :=
  {| scaler := Some fit;
     isolation_forest := isolation_forest self;
     isolation_forest_fit := isolation_forest_fit self;
     dbscan := dbscan self;
     dbscan_fit := dbscan_fit self |}.

Definition set_isolation_forest_fit (self : Classifier) (fit : ForestFit)
    : Classifier :=
  {| scaler := scaler self;
     isolation_forest := isolation_forest self;
     isolation_forest_fit := Some fit;
     dbscan := dbscan self;
     dbscan_fit := dbscan_fit self |}.

Definition set_dbscan_fit (self : Classifier) (fit : ClusterFit) : Classifier :=
  {| scaler := scaler self;
     isolation_forest := isolation_forest self;
     isolation_forest_fit := isolation_forest_fit self;
     dbscan := dbscan self;
     dbscan_fit := Some fit |}.

(** [analyze_patterns(self, features_df)], with the classifier it leaves;
    [now] is what [datetime.now()] returns during the call. *)
Definition analyze_patterns (now : datetime) (features_df : DataFrame Feature)
    (self : Classifier)
    : result (DataFrame Result * Metrics) * Classifier :=
  let feature_cols :=
    filter (fun col => (col ∉ ["ip"])
                       ∧ (dtype_in_int64_float64 (column_dtype col) = true))
      (columns features_df) in
  let X := select_columns features_df feature_cols in
  match scaler_fit_transform X with
  | Raise e => (Raise e, self)
  | Ok (fit, X_scaled) =>
  let self := set_scaler self fit in
  match isolation_forest_fit_predict (isolation_forest self) X_scaled with
  | Raise e => (Raise e, self)
  | Ok (fit, if_predictions) =>
  let self := set_isolation_forest_fit self fit in
  match dbscan_fit_predict (dbscan self) X_scaled with
  | Raise e => (Raise e, self)
  | Ok (fit, dbscan_labels) =>
  let self := set_dbscan_fit self fit in
  match assign_labels features_df if_predictions dbscan_labels with
  | Raise e => (Raise e, self)
  | Ok results_df =>
  let metrics :=
    {| total_ips := len (records features_df);
       anomaly_count := sum_1_for (fun p => p =? -1) if_predictions;
       cluster_count :=
         len_set_Z dbscan_labels
         - (if bool_decide (-1 ∈ dbscan_labels) then 1 else 0);
       noise_points := sum_1_for (fun l => l =? -1) dbscan_labels;
       timestamp := now |} in
  (Ok (results_df, metrics), self)
  end end end end.

End Analysis.

Arguments scaler {ScalerFit ForestFit ClusterFit} c.
Arguments isolation_forest {ScalerFit ForestFit ClusterFit} c.
Arguments isolation_forest_fit {ScalerFit ForestFit ClusterFit} c.
Arguments dbscan {ScalerFit ForestFit ClusterFit} c.
Arguments dbscan_fit {ScalerFit ForestFit ClusterFit} c.
Arguments analyze_patterns {ScalerFit ForestFit ClusterFit}.

(** ** Series statistics (pandas) *)

#[global] Instance Qle_decision (x y : Q) : Decision (x <= y)%Q.
Proof.
  destruct (Qlt_le_dec y x) as [H | H].
  - right. apply Qlt_not_le, H.
  - left. exact H.
Defined.

(** [Series.mean()]; NaN on an empty series. *)
Definition series_mean (xs : list Q) : option Q :=
  match xs with
  | [] => None
  | _ :: _ => Some (Qsum xs / inject_Z (len xs))%Q
  end.

(** The sum of the squared deviations from the mean. *)
Definition squared_deviations (xs : list Q) : Q :=
  let avg := (Qsum xs / inject_Z (len xs))%Q in
  Qsum (map (fun x => (avg - x) * (avg - x))%Q xs).

(** [Series.var()]: pandas normalises by [N - 1] ([ddof=1] is its
    default); NaN when the series has fewer than two values. *)
Definition series_var (xs : list Q) : option Q :=
  if len xs <? 2 then None
  else Some (squared_deviations xs / inject_Z (len xs - 1))%Q.

(** [Series.std()], the square root of [Series.var()]. *)
Definition series_std (xs : list Q) : option R :=
  v ← series_var xs; Some (sqrt (Q2R v)).

(** [Series.median()]: the middle of the sorted values, the mean of the two
    middle ones when their number is even. *)
Definition series_median (xs : list Q) : option Q :=
  let sorted := merge_sort Qle xs in
  let n := length xs in
  match xs with
  | [] => None
  | _ :: _ =>
      if Nat.even n
      then Some ((nth (n / 2 - 1) sorted 0 + nth (n / 2) sorted 0) / 2)%Q
      else Some (nth (n / 2) sorted 0%Q)
  end.

(** Comparisons of floats; a comparison with NaN is false. *)
Definition R_ltb (x y : R) : bool := if Rlt_dec x y then true else false.

Definition nan_ltb (x y : option R) : bool :=
  match x, y with
  | Some a, Some b => R_ltb a b
  | _, _ => false
  end.

Definition nanQ_ltb (x y : option Q) : bool :=
  match x, y with
  | Some a, Some b => Qltb a b
  | _, _ => false
  end.

(** [mean + 2 * std] *)
Definition mean_plus_2_std (mean : option Q) (std : option R) : option R :=
  m ← mean; s ← std; Some (Q2R m + 2 * s)%R.

(** ** Result interpretation *)

Definition counts_of (rows : list Result) : list Q :=
  map (fun row : Result => inject_Z (request_count row)) rows.

(** [_get_high_frequency_ips(df)] *)
Definition _get_high_frequency_ips (df : DataFrame Result) : result (list Result) :=
  counts ← get_column df "request_count" (fun row : Result => inject_Z (request_count row));
  let threshold := mean_plus_2_std (series_mean counts) (series_std counts) in
  let high_freq :=
    List.filter
      (fun row : Result => nan_ltb threshold (Some (IZR (request_count row))))
      (records df) in
  Ok high_freq.

(** [_identify_unusual_patterns(row)] *)
Definition _identify_unusual_patterns (row : Result) : list string :=
  let patterns := [] in
  let patterns :=
    if request_count row >? 1000
    then patterns ++ ["Extremely high request count"] else patterns in
  let patterns :=
    if Qltb (avg_time_between_requests row) 0.1%Q
    then patterns ++ ["Unusually rapid requests"] else patterns in
  let patterns :=
    if Qgtb (error_ratio row) 0.5%Q
    then patterns ++ ["High error rate"] else patterns in
  let patterns :=
    if user_agent_count row >? 10
    then patterns ++ ["Multiple user agents"] else patterns in
  patterns.

(** The score that [_calculate_risk_level] accumulates in [risk_score]. *)
Definition risk_score (row : Result) : Z :=
  let risk_score := 0 in
  let risk_score :=
    if request_count row >? 1000 then risk_score + 3
    else if request_count row >? 500 then risk_score + 2
    else risk_score in
  let risk_score :=
    if Qltb (avg_time_between_requests row) 0.1%Q then risk_score + 3
    else risk_score in
  let risk_score :=
    if Qgtb (error_ratio row) 0.5%Q then risk_score + 2 else risk_score in
  let risk_score :=
    if user_agent_count row >? 10 then risk_score + 2 else risk_score in
  risk_score.

(** [_calculate_risk_level(row)] *)
Definition _calculate_risk_level (row : Result) : string :=
  let risk_score := risk_score row in
  if risk_score >=? 8 then "High"
  else if risk_score >=? 5 then "Medium"
  else "Low".

(** The first key of [keys] that the frame lacks raises [KeyError]. *)
Fixpoint require_keys {A : Type} (df : DataFrame A) (keys : list string)
    : result unit :=
  match keys with
  | [] => Ok tt
  | key :: keys' =>
      if bool_decide (key ∈ columns df) then require_keys df keys'
      else Raise (KeyError key)
  end.

(** [df[mask]]: the rows that the mask keeps, under the same columns. *)
Definition select_rows {A : Type} (df : DataFrame A) (mask : A -> bool)
    : DataFrame A :=
  {| columns := columns df; records := List.filter mask (records df) |}.

(** The entries of [_analyze_clusters] and of [_analyze_anomalies]. *)
Record ClusterInfo : Type := {
  cluster_id : Z;
  cluster_size : Z;
  avg_request_count : option Q;
  cluster_avg_time_between_requests : option Q;
  common_patterns : list string
}.

Record AnomalyInfo : Type := {
  anomaly_ip : string;
  anomaly_request_count : Z;
  unusual_patterns : list string;
  risk_level : string
}.

(** [_identify_common_patterns(cluster_data)] *)
Definition _identify_common_patterns (cluster_data : DataFrame Result)
    : result (list string) :=
  let patterns := [] in
  counts ← get_column cluster_data "request_count"
             (fun row : Result => inject_Z (request_count row));
  let avg_req_count := series_mean counts in
  let patterns :=
    if nanQ_ltb (fmap (fun m => m * 2)%Q (series_median counts)) avg_req_count
    then patterns ++ ["High request frequency variation"] else patterns in
  times ← get_column cluster_data "avg_time_between_requests"
            (fun row : Result => avg_time_between_requests row);
  let patterns :=
    if nan_ltb (series_std times) (Some (Q2R 0.1))
    then patterns ++ ["Consistent request timing"] else patterns in
  ratios ← get_column cluster_data "unique_paths_ratio"
             (fun row : Result => unique_paths_ratio row);
  let patterns :=
    if nanQ_ltb (series_mean ratios) (Some 0.2%Q)
    then patterns ++ ["Limited path variety"] else patterns in
  Ok patterns.

(** The body of the loop of [_analyze_clusters], for one label. *)
Definition cluster_entry (df : DataFrame Result) (label : Z)
    : result (list ClusterInfo) :=
  if bool_decide (label ≠ -1) then
    let cluster_data := select_rows df (fun row => cluster_label row =? label) in
    counts ← get_column cluster_data "request_count"
               (fun row : Result => inject_Z (request_count row));
    times ← get_column cluster_data "avg_time_between_requests"
              (fun row : Result => avg_time_between_requests row);
    patterns ← _identify_common_patterns cluster_data;
    Ok [ {| cluster_id := label;
            cluster_size := len (records cluster_data);
            avg_request_count := series_mean counts;
            cluster_avg_time_between_requests := series_mean times;
            common_patterns := patterns |} ]
  else Ok [].

(** [_analyze_clusters(df)] *)
Definition _analyze_clusters (df : DataFrame Result) : result (list ClusterInfo) :=
  labels ← get_column df "cluster_label" cluster_label;
  clusters ← mapM (cluster_entry df) (merge_sort Z.le (remove_dups labels));
  Ok (concat clusters).

(** The body of the loop of [_analyze_anomalies], for one row: the keys
    are those that the loop and the two row functions read, in the order
    in which they read them. *)
Definition anomaly_entry (df : DataFrame Result) (anomaly : Result)
    : result AnomalyInfo :=
  _ ← require_keys df
        ["ip"; "request_count";
         "request_count"; "avg_time_between_requests"; "error_ratio";
         "user_agent_count"];
  Ok {| anomaly_ip := ip anomaly;
        anomaly_request_count := request_count anomaly;
        unusual_patterns := _identify_unusual_patterns anomaly;
        risk_level := _calculate_risk_level anomaly |}.

(** [_analyze_anomalies(df)] *)
Definition _analyze_anomalies (df : DataFrame Result) : result (list AnomalyInfo) :=
  _ ← get_column df "anomaly_score" anomaly_score;
  let anomalies := select_rows df (fun row => anomaly_score row =? -1) in
  mapM (anomaly_entry anomalies) (records anomalies).

Definition rate_limiting : string :=
  "Consider implementing rate limiting for high-frequency requestors".
Definition monitor_user_agents : string :=
  "Monitor IPs using multiple user agents".
Definition investigate_errors : string :=
  "Investigate IPs with high error rates".
Definition timing_analysis : string :=
  "Implement request timing analysis".

(** [_generate_recommendations(df)] *)
Definition _generate_recommendations (df : DataFrame Result) : result (list string) :=
  let recommendations := [] in
  counts ← get_column df "request_count" (fun row : Result => request_count row);
  let recommendations :=
    if existsb (fun c => c >? 1000) counts
    then recommendations ++ [rate_limiting] else recommendations in
  agents ← get_column df "user_agent_count" (fun row : Result => user_agent_count row);
  let recommendations :=
    if existsb (fun c => c >? 10) agents
    then recommendations ++ [monitor_user_agents] else recommendations in
  errors ← get_column df "error_ratio" (fun row : Result => error_ratio row);
  let recommendations :=
    if existsb (fun e => Qgtb e 0.5) errors
    then recommendations ++ [investigate_errors] else recommendations in
  times ← get_column df "avg_time_between_requests"
            (fun row : Result => avg_time_between_requests row);
  let recommendations :=
    if existsb (fun t => Qltb t 0.1) times
    then recommendations ++ [timing_analysis] else recommendations in
  Ok recommendations.

(** The [analysis] dictionary of [get_detailed_analysis]. *)
Record Analysis : Type := {
  high_frequency_ips : list Result;
  pattern_clusters : list ClusterInfo;
  anomaly_patterns : list AnomalyInfo;
  recommendations : list string
}.

(** [get_detailed_analysis(results_df)] *)
Definition get_detailed_analysis (results_df : DataFrame Result) : result Analysis :=
  high ← _get_high_frequency_ips results_df;
  clusters ← _analyze_clusters results_df;
  anomalies ← _analyze_anomalies results_df;
  recs ← _generate_recommendations results_df;
  Ok {| high_frequency_ips := high;
        pattern_clusters := clusters;
        anomaly_patterns := anomalies;
        recommendations := recs |}.

(** ** The pipeline *)

Section Pipeline.

Variable np_std : list Q -> Q.
Variables ScalerFit ForestFit ClusterFit : Type.
Variable scaler_fit_transform
  : list (list Q) -> result (ScalerFit * list (list Q)).
Variable isolation_forest_fit_predict
  : IsolationForest -> list (list Q) -> result (ForestFit * list Z).
Variable dbscan_fit_predict
  : DBSCAN -> list (list Q) -> result (ClusterFit * list Z).

(** The script under [if __name__ == "__main__"], on the logs [logs] and
    from the classifier [self]: feature extraction, pattern analysis,
    detailed analysis. It returns what the script binds, and the
    classifier that the run leaves. *)
Definition run_pipeline (now : datetime) (logs : list Log)
    (self : Classifier ScalerFit ForestFit ClusterFit)
    : result (DataFrame Result * Metrics * Analysis)
      * Classifier ScalerFit ForestFit ClusterFit :=
  let features_df := extract_features np_std logs in
  match analyze_patterns scaler_fit_transform isolation_forest_fit_predict
          dbscan_fit_predict now features_df self with
  | (Raise e, self) => (Raise e, self)
  | (Ok (results_df, metrics), self) =>
      match get_detailed_analysis results_df with
      | Raise e => (Raise e, self)
      | Ok analysis => (Ok (results_df, metrics, analysis), self)
      end
  end.


End Pipeline.

Arguments run_pipeline np_std {ScalerFit ForestFit ClusterFit}.

(** ** The risk rules, as the specification words them *)

Definition spec_risk_score (request_count : Z) (avg_inter_arrival error_ratio : Q)
    (distinct_user_agent_count : Z) : Z :=
  (if request_count >? 1000 then 3 else if request_count >? 500 then 2 else 0)
  + (if Qlt_le_dec avg_inter_arrival 0.1 then 3 else 0)
  + (if Qlt_le_dec 0.5 error_ratio then 2 else 0)
  + (if distinct_user_agent_count >? 10 then 2 else 0).

Definition spec_risk_level (total : Z) : string :=
  if 8 <=? total then "High" else if 5 <=? total then "Medium" else "Low".

(** ** The high-frequency threshold, in closed form *)

(** The mean, and the standard deviations normalised by [N - 1] (sample)
    and by [N] (population), of a list of values. *)
Definition mean_R (xs : list Q) : R := Q2R (Qsum xs / inject_Z (len xs)).

Definition sample_std_R (xs : list Q) : R :=
  sqrt (Q2R (squared_deviations xs / inject_Z (len xs - 1))).

Definition population_std_R (xs : list Q) : R :=
  sqrt (Q2R (squared_deviations xs / inject_Z (len xs))).

(** A test of [mean + 2 * sqrt var < c] that takes no square root:
    [mean < c] and [4 * var < (c - mean)^2]. *)
Definition exceeds_b (mean var : option Q) (c : Z) : bool :=
  match mean, var with
  | Some m, Some v =>
      Qltb m (inject_Z c)
      && Qltb (4 * v) ((inject_Z c - m) * (inject_Z c - m))
  | _, _ => false
  end.

(** The order [Low < Medium < High]. *)
Definition risk_rank (level : string) : Z :=
  if bool_decide (level = "High") then 2
  else if bool_decide (level = "Medium") then 1
  else 0.

(** The four recommendations in their fixed order. *)
Definition all_recommendations : list string :=
  [rate_limiting; monitor_user_agents; investigate_errors; timing_analysis].

(** The frame has every column of [keys]. *)
Definition has_columns {A : Type} (df : DataFrame A) (keys : list string) : bool :=
  forallb (fun key => bool_decide (key ∈ columns df)) keys.

(** The columns of [results_df] when the batch is not empty. *)
Definition result_columns : list string :=
  feature_keys ++ ["anomaly_score"; "cluster_label"].

(** The entry of the anomaly report that the specification describes. *)
Definition spec_anomaly_info (row : Result) : AnomalyInfo :=
  {| anomaly_ip := ip row;
     anomaly_request_count := request_count row;
     unusual_patterns := _identify_unusual_patterns row;
     risk_level :=
       spec_risk_level
         (spec_risk_score (request_count row) (avg_time_between_requests row)
            (error_ratio row) (user_agent_count row)) |}.

(** ** The two ratios in binary64 *)

(** Python divides two [int]s into the correctly rounded quotient, which
    below 2^53 is the binary64 quotient of the two integers. *)
Definition float_of_int (z : Z) : PrimFloat.float :=
  PrimFloat.of_uint63 (Uint63.of_Z z).

(** [success_ratio + error_ratio] in binary64, for a group of [n] entries
    of which [errors] have a status of 400 or more. *)
Definition ratio_sum_binary64 (errors n : Z) : PrimFloat.float :=
  PrimFloat.add
    (PrimFloat.div (float_of_int (n - errors)) (float_of_int n))
    (PrimFloat.div (float_of_int errors) (float_of_int n)).

(** The sum is 1.0 for every group of at most [bound] entries. *)
Definition ratio_sums_are_one (bound : nat) : bool :=
  forallb
    (fun n =>
       forallb
         (fun errors =>
            PrimFloat.eqb (ratio_sum_binary64 errors n) (float_of_int 1))
         (map Z.of_nat (seq 0 (S (Z.to_nat n)))))
    (map Z.of_nat (seq 1 bound)).

(** ** Sums and selections used in the statements *)

(** [sum(xs)] for integers. *)
Definition sum_Z (xs : list Z) : Z := fold_right Z.add 0 xs.

(** The list [feature_cols] that [analyze_patterns] computes from the
    columns of the frame. *)
Definition numeric_columns (features_df : DataFrame Feature) : list string :=
  filter (fun col => (col ∉ ["ip"])
                     ∧ (dtype_in_int64_float64 (column_dtype col) = true))
    (columns features_df).

(** The labels that [_analyze_clusters] reports on: the distinct labels of
    the frame in ascending order, the noise label -1 left out. *)
Definition cluster_ids (df : DataFrame Result) : list Z :=
  filter (fun label => label ≠ -1)
    (merge_sort Z.le (remove_dups (map cluster_label (records df)))).

(** The entry of a label in the cluster report, on a frame that has the
    columns read. *)
Definition cluster_info_of (df : DataFrame Result) (label : Z) : ClusterInfo :=
  let cluster_data := select_rows df (fun row => cluster_label row =? label) in
  {| cluster_id := label;
     cluster_size := len (records cluster_data);
     avg_request_count :=
       series_mean
         (map (fun row : Result => inject_Z (request_count row))
            (records cluster_data));
     cluster_avg_time_between_requests :=
       series_mean
         (map (fun row : Result => avg_time_between_requests row)
            (records cluster_data));
     common_patterns :=
       match _identify_common_patterns cluster_data with
       | Ok patterns => patterns
       | Raise _ => []
       end |}.

(** The columns that [get_detailed_analysis] reads. *)
Definition analysis_keys : list string :=
  ["request_count"; "cluster_label"; "avg_time_between_requests";
   "unique_paths_ratio"; "anomaly_score"; "ip"; "error_ratio";
   "user_agent_count"].

(** ** Sample batches *)

Definition sample_log (addr : string) (ts : datetime) (status : Z) : Log :=
  {| log_ip := addr;
     log_timestamp := ts;
     log_path := "/page1";
     log_status_code := status;
     log_bytes := 1024;
     log_user_agent := "Mozilla/5.0" |}.

(** Two requests of one address, one minute apart, and one request of
    another address. *)
Definition sample_logs : list Log :=
  [sample_log "192.168.1.1" 0 200;
   sample_log "192.168.1.1" 60000000 404;
   sample_log "192.168.1.2" 5000000 200].

(** No group of [sample_logs] has more than one inter-arrival gap, and the
    standard deviation of a single value is 0. *)
Definition sample_np_std (time_diffs : list Q) : Q := 0%Q.

Definition sample_result (addr : string) (count : Z) (avg err : Q)
    (agents score : Z) : Result :=
  {| feature :=
       {| ip := addr;
          request_count := count;
          avg_time_between_requests := avg;
          std_time_between_requests := 0;
          unique_paths_ratio := 1;
          success_ratio := 1 - err;
          error_ratio := err;
          bytes_transferred_mean := 1024;
          user_agent_count := agents;
          requests_m := map (fun window => (window, 1)) time_windows |};
     anomaly_score := score;
     cluster_label := -1 |}.

(** An address with 1500 requests, 0.05 s between requests, 60% of errors
    and 15 user agents, labelled an outlier, and an ordinary address. *)
Definition sample_results : DataFrame Result :=
  {| columns := result_columns;
     records :=
       [sample_result "10.0.0.1" 1500 0.05 0.6 15 (-1);
        sample_result "10.0.0.2" 20 30 0 1 1] |}.

(** Six addresses with 1, 1, 1, 1, 3 and 7 requests. *)
Definition sample_counts : DataFrame Result :=
  {| columns := result_columns;
     records :=
       map (fun '(addr, count) => sample_result addr count 30 0 1 1)
         [("10.0.0.1", 1); ("10.0.0.2", 1); ("10.0.0.3", 1);
          ("10.0.0.4", 1); ("10.0.0.5", 3); ("10.0.0.6", 7)] |}.

(** Estimators for the sample batches: a scaler that returns the matrix as
    it is, a detector that labels the first row an outlier and the others
    inliers, a clustering that finds noise only, and a detector that
    forgets the last row. None of them keeps fitted attributes. *)
Definition sample_scaler (X : list (list Q)) : result (unit * list (list Q)) :=
  Ok (tt, X).

Definition sample_forest (params : IsolationForest) (X : list (list Q))
    : result (unit * list Z) :=
  Ok (tt, match X with [] => [] | _ :: X' => -1 :: map (fun _ => 1) X' end).

Definition sample_dbscan (params : DBSCAN) (X : list (list Q))
    : result (unit * list Z) :=
  Ok (tt, map (fun _ => -1) X).


(** Four addresses: two in cluster 0, one in cluster 1, one noise point. *)
Definition sample_clustered : DataFrame Result :=
  {| columns := result_columns;
     records :=
       map (fun '(addr, label) =>
              {| feature := feature (sample_result addr 20 30 0 1 1);
                 anomaly_score := 1;
                 cluster_label := label |})
         [("10.0.0.1", 1); ("10.0.0.2", 0); ("10.0.0.3", -1); ("10.0.0.4", 0)] |}.

(** * Properties *)

(** ** Counting *)

Lemma sum_1_for_nonneg {A : Type} (p : A -> bool) (xs : list A) :
  0 <= sum_1_for p xs.
Proof.
  induction xs as [| x xs IH]; simpl; [lia |].
  destruct (p x); lia.
Qed.

Lemma sum_1_for_mono {A : Type} (p q : A -> bool) (xs : list A) :
  (forall x, In x xs -> p x = true -> q x = true) ->
  sum_1_for p xs <= sum_1_for q xs.
Proof.
  induction xs as [| x xs IH]; intros Hpq; simpl; [lia |].
  assert (Hxs : sum_1_for p xs <= sum_1_for q xs).
  { apply IH. intros y Hy. apply Hpq. now right. }
  destruct (p x) eqn:Hp.
  - rewrite (Hpq x (or_introl eq_refl) Hp). lia.
  - destruct (q x); lia.
Qed.

Lemma sum_1_for_In {A : Type} (p : A -> bool) (xs : list A) (x : A) :
  In x xs -> p x = true -> 1 <= sum_1_for p xs.
Proof.
  induction xs as [| y xs IH]; simpl; [tauto |].
  intros [-> | Hin] Hp.
  - rewrite Hp. pose proof (sum_1_for_nonneg p xs). lia.
  - specialize (IH Hin Hp). destruct (p y); lia.
Qed.

Lemma sum_1_for_Permutation {A : Type} (p : A -> bool) (xs ys : list A) :
  Permutation xs ys -> sum_1_for p xs = sum_1_for p ys.
Proof.
  induction 1; simpl; lia.
Qed.

Lemma sum_1_for_complement {A : Type} (p q : A -> bool) (xs : list A) :
  (forall x, q x = negb (p x)) ->
  sum_1_for p xs + sum_1_for q xs = len xs.
Proof.
  intros Hq. unfold len.
  induction xs as [| x xs IH]; simpl; [lia |].
  rewrite Hq. destruct (p x); simpl; lia.
Qed.

(** ** The sliding window *)

Lemma window_step_closed_count ts w acc t :
  window_step ts w acc t = Z.max acc (closed_count ts w t).
Proof. reflexivity. Qed.

Lemma fold_window_step_ge ts w l acc :
  acc <= fold_left (window_step ts w) l acc.
Proof.
  revert acc. induction l as [| t l IH]; intros acc; cbn [fold_left]; [lia |].
  etransitivity; [| apply IH].
  rewrite window_step_closed_count. lia.
Qed.

Lemma fold_window_step_upper ts w l acc t :
  In t l -> closed_count ts w t <= fold_left (window_step ts w) l acc.
Proof.
  revert acc. induction l as [| t' l IH]; intros acc; cbn [fold_left In]; [tauto |].
  intros [-> | Hin].
  - pose proof (fold_window_step_ge ts w l (window_step ts w acc t)) as Hge.
    pose proof (window_step_closed_count ts w acc t) as Hstep. lia.
  - now apply IH.
Qed.

Lemma fold_window_step_attained ts w l acc :
  fold_left (window_step ts w) l acc = acc
  \/ exists t, In t l /\ fold_left (window_step ts w) l acc = closed_count ts w t.
Proof.
  revert acc. induction l as [| t l IH]; intros acc; cbn [fold_left In];
    [now left |].
  destruct (IH (window_step ts w acc t)) as [Heq | (t' & Hin & Heq)].
  - rewrite Heq, window_step_closed_count.
    destruct (Z.max_spec acc (closed_count ts w t)) as [[_ ->] | [_ ->]].
    + right. exists t. split; [now left | reflexivity].
    + now left.
  - right. exists t'. split; [now right | exact Heq].
Qed.

Lemma closed_count_nonneg ts w t : 0 <= closed_count ts w t.
Proof. apply sum_1_for_nonneg. Qed.

(** Each timestamp lies in the window that ends at it. *)
Lemma closed_count_self ts w t :
  0 <= w -> In t ts -> 1 <= closed_count ts w t.
Proof.
  intros Hw Hin. unfold closed_count.
  apply (sum_1_for_In _ ts t Hin).
  apply andb_true_iff. split; apply Z.leb_le; lia.
Qed.

(** A longer window holds every timestamp of a shorter one. *)
Lemma closed_count_mono ts w1 w2 t :
  w1 <= w2 -> closed_count ts w1 t <= closed_count ts w2 t.
Proof.
  intros Hw. unfold closed_count. apply sum_1_for_mono.
  intros x _ Hx. apply andb_true_iff in Hx as [H1 H2].
  apply Z.leb_le in H1. apply andb_true_iff. split; [apply Z.leb_le; lia | exact H2].
Qed.

Lemma closed_count_Permutation ts ts' w t :
  Permutation ts ts' -> closed_count ts w t = closed_count ts' w t.
Proof. intros Hp. unfold closed_count. now apply sum_1_for_Permutation. Qed.

Lemma is_max_over_unique f ts m m' :
  is_max_over f ts m -> is_max_over f ts m' -> m = m'.
Proof.
  intros [Hub (t & Hin & ->)] [Hub' (t' & Hin' & ->)].
  pose proof (Hub t' Hin'). pose proof (Hub' t Hin). lia.
Qed.

Lemma is_max_over_mono f g ts m m' :
  (forall t, In t ts -> f t <= g t) ->
  is_max_over f ts m -> is_max_over g ts m' -> m <= m'.
Proof.
  intros Hfg [_ (t & Hin & ->)] [Hub' _].
  pose proof (Hfg t Hin). pose proof (Hub' t Hin). lia.
Qed.

(** On a non-empty list, [_count_requests_in_window] is the largest count
    of a closed window that ends at one of the timestamps. *)
Lemma count_requests_is_max ts window_minutes :
  ts <> [] ->
  is_max_over (closed_count ts (timedelta_minutes window_minutes)) ts
    (_count_requests_in_window ts window_minutes).
Proof.
  intros Hne. destruct ts as [| t0 ts']; [congruence |].
  unfold _count_requests_in_window.
  set (ts := t0 :: ts') in *. set (w := timedelta_minutes window_minutes).
  split.
  - intros t Hin. now apply fold_window_step_upper.
  - destruct (fold_window_step_attained ts w ts 0) as [Heq | Hex]; [| exact Hex].
    exists t0. split; [now left |].
    rewrite Heq.
    pose proof (fold_window_step_upper ts w ts 0 t0 (or_introl eq_refl)) as Hub.
    pose proof (closed_count_nonneg ts w t0). lia.
Qed.

Lemma count_requests_Permutation ts ts' window_minutes :
  Permutation ts ts' ->
  _count_requests_in_window ts window_minutes
  = _count_requests_in_window ts' window_minutes.
Proof.
  intros Hp. destruct ts as [| t0 ts0].
  - apply Permutation_nil in Hp. now subst.
  - assert (Hne : ts' <> []).
    { intros ->. symmetry in Hp. now apply Permutation_nil in Hp. }
    apply (is_max_over_unique
             (closed_count ts' (timedelta_minutes window_minutes)) ts').
    + destruct (count_requests_is_max (t0 :: ts0) window_minutes) as [Hub Hex];
        [congruence |].
      split.
      * intros t Hin. rewrite <- (closed_count_Permutation _ _ _ _ Hp).
        apply Hub. apply (Permutation_in t (Permutation_sym Hp)), Hin.
      * destruct Hex as (t & Hin & Heq). exists t. split.
        -- apply (Permutation_in t Hp), Hin.
        -- rewrite Heq. now apply closed_count_Permutation.
    + now apply count_requests_is_max.
Qed.

(** ** Feature extraction *)

Lemma fold_left_append_map {A B : Type} (g : A -> B) (l : list A) (acc : list B) :
  fold_left (fun features a => features ++ [g a]) l acc = acc ++ map g l.
Proof.
  revert acc. induction l as [| a l IH]; intros acc; simpl.
  - now rewrite app_nil_r.
  - rewrite IH, <- app_assoc. reflexivity.
Qed.

Lemma ip_set_spec logs addr :
  In addr (ip_set logs) <-> exists log, In log logs /\ log_ip log = addr.
Proof.
  unfold ip_set. rewrite <- list_elem_of_In, elem_of_elements, elem_of_list_to_set.
  rewrite list_elem_of_In, in_map_iff.
  split; intros (log & H1 & H2); exists log; split; assumption.
Qed.

Lemma ip_set_NoDup logs : NoDup (ip_set logs).
Proof. unfold ip_set. apply NoDup_elements. Qed.

Lemma logs_of_spec logs addr log :
  In log (logs_of logs addr) <-> log_ip log = addr /\ In log logs.
Proof.
  unfold logs_of.
  rewrite <- list_elem_of_In, list_elem_of_filter, list_elem_of_In.
  reflexivity.
Qed.

Lemma logs_of_nonempty logs addr :
  In addr (ip_set logs) -> 0 < len (logs_of logs addr).
Proof.
  intros (log & Hin & Hip)%ip_set_spec.
  assert (H : In log (logs_of logs addr)) by now apply logs_of_spec.
  unfold len. destruct (logs_of logs addr); [contradiction | simpl; lia].
Qed.

Section ExtractionFacts.

Variable np_std : list Q -> Q.

Lemma records_extract_features logs :
  records (extract_features np_std logs)
  = map (extract_one np_std logs) (ip_set logs).
Proof.
  unfold extract_features, pd_DataFrame. cbn [records].
  now rewrite fold_left_append_map.
Qed.

Lemma In_extract_features logs f :
  In f (records (extract_features np_std logs)) <->
  exists addr, In addr (ip_set logs) /\ f = extract_one np_std logs addr.
Proof.
  rewrite records_extract_features, in_map_iff.
split; intros (addr & H1 & H2); exists addr; split; auto.
Qed.

Lemma ip_extract_one logs addr : ip (extract_one np_std logs addr) = addr.
Proof. reflexivity. Qed.

Lemma request_count_extract_one logs addr :
  request_count (extract_one np_std logs addr) = len (logs_of logs addr).
Proof. reflexivity. Qed.

(** The loop over [time_windows] leaves one entry per window. *)
Lemma requests_m_extract_one logs addr :
  requests_m (extract_one np_std logs addr)
  = map (fun window =>
           (window,
            _count_requests_in_window
              (merge_sort Z.le (timestamps_of logs addr)) window))
        time_windows.
Proof. reflexivity. Qed.

Lemma get_requests_extract_one logs addr window :
  In window time_windows ->
  get_requests (requests_m (extract_one np_std logs addr)) window
  = _count_requests_in_window (timestamps_of logs addr) window.
Proof.
  intros Hw. rewrite requests_m_extract_one.
  rewrite <- (count_requests_Permutation _ _ window
                (merge_sort_Permutation Z.le (timestamps_of logs addr))).
  unfold time_windows in Hw. cbn [In] in Hw.
  destruct Hw as [<- | [<- | [<- | [<- | [<- | []]]]]]; reflexivity.
Qed.

Lemma timestamps_of_nonempty logs addr :
  In addr (ip_set logs) -> timestamps_of logs addr <> [].
Proof.
  intros Hin%logs_of_nonempty. unfold timestamps_of, len in *.
  destruct (logs_of logs addr); simpl in *; [lia | discriminate].
Qed.

End ExtractionFacts.

(** ** Windowed request counts *)

Lemma count_requests_mono ts w1 w2 :
  w1 <= w2 ->
  _count_requests_in_window ts w1 <= _count_requests_in_window ts w2.
Proof.
  intros Hw. destruct ts as [| t0 ts0] eqn:Hts; [reflexivity |].
  rewrite <- Hts.
  assert (Hne : ts <> []) by (rewrite Hts; discriminate).
  apply (is_max_over_mono
           (closed_count ts (timedelta_minutes w1))
           (closed_count ts (timedelta_minutes w2)) ts).
  - intros t _. apply closed_count_mono. unfold timedelta_minutes. lia.
  - now apply count_requests_is_max.
  - now apply count_requests_is_max.
Qed.

Lemma count_requests_pos ts w :
  ts <> [] -> 0 <= w -> 1 <= _count_requests_in_window ts w.
Proof.
  intros Hne Hw.
  destruct (count_requests_is_max ts w Hne) as [_ (t & Hin & ->)].
  apply closed_count_self; [unfold timedelta_minutes; lia | exact Hin].
Qed.

Lemma time_windows_nonneg w : In w time_windows -> 0 <= w.
Proof.
  unfold time_windows. cbn [In]. intros [<- | [<- | [<- | [<- | [<- | []]]]]]; lia.
Qed.

(** C2 (amended): for every address of the batch and every configured
    window size, the windowed request count is the maximum, over the
    timestamps t of the address, of the number of its timestamps in the
    closed interval [t - w, t]; a timestamp equal to t - w is counted. *)
Theorem windowed_count_closed_window (np_std : list Q -> Q) logs f window :
  In f (records (extract_features np_std logs)) ->
  In window time_windows ->
  is_max_over
    (closed_count (timestamps_of logs (ip f)) (timedelta_minutes window))
    (timestamps_of logs (ip f))
    (get_requests (requests_m f) window).
Proof.
  intros (addr & Haddr & ->)%In_extract_features Hw.
  rewrite ip_extract_one, get_requests_extract_one by exact Hw.
  apply count_requests_is_max. now apply timestamps_of_nonempty.
Qed.

Lemma windowed_count_closed_window_witness :
  is_max_over
    (closed_count (timestamps_of sample_logs "192.168.1.1") (timedelta_minutes 1))
    (timestamps_of sample_logs "192.168.1.1")
    (get_requests
       (requests_m (extract_one sample_np_std sample_logs "192.168.1.1")) 1).
Proof.
  apply (windowed_count_closed_window sample_np_std sample_logs
           (extract_one sample_np_std sample_logs "192.168.1.1") 1).
  - vm_compute. left. reflexivity.
  - simpl. left. reflexivity.
Defined.

(** C2, as stated, fails: with two requests exactly one minute apart the
    code counts 2 in the one-minute window, and the largest count of a
    window (t - w, t] is 1. *)
Lemma windowed_count_not_half_open :
  _count_requests_in_window [0; 60000000] 1 = 2
  /\ is_max_over (half_open_count [0; 60000000] (timedelta_minutes 1))
       [0; 60000000] 1.
Proof.
  split; [reflexivity |]. split.
  - intros t [<- | [<- | []]]; vm_compute; discriminate.
  - exists 0. split; [now left | reflexivity].
Qed.

(** C7: for every address of the batch, the windowed request counts do not
    decrease as the window size increases. *)
Theorem windowed_counts_monotone (np_std : list Q -> Q) logs f w1 w2 :
  In f (records (extract_features np_std logs)) ->
  In w1 time_windows -> In w2 time_windows -> w1 <= w2 ->
  get_requests (requests_m f) w1 <= get_requests (requests_m f) w2.
Proof.
  intros (addr & Haddr & ->)%In_extract_features Hw1 Hw2 Hle.
  rewrite !get_requests_extract_one by assumption.
  now apply count_requests_mono.
Qed.

Lemma windowed_counts_monotone_witness :
  get_requests (requests_m (extract_one sample_np_std sample_logs "192.168.1.1")) 1
  <= get_requests (requests_m (extract_one sample_np_std sample_logs "192.168.1.1")) 5.
Proof.
  apply (windowed_counts_monotone sample_np_std sample_logs).
  - vm_compute. left. reflexivity.
  - simpl. left. reflexivity.
  - simpl. right. left. reflexivity.
  - lia.
Defined.

(** C10: for every address of a batch and every configured window size,
    the windowed request count is at least 1. *)
Theorem windowed_count_at_least_one (np_std : list Q -> Q) logs f window :
  In f (records (extract_features np_std logs)) ->
  In window time_windows ->
  1 <= get_requests (requests_m f) window.
Proof.
  intros (addr & Haddr & ->)%In_extract_features Hw.
  rewrite get_requests_extract_one by exact Hw.
  apply count_requests_pos.
  - now apply timestamps_of_nonempty.
  - now apply time_windows_nonneg.
Qed.

Lemma windowed_count_at_least_one_witness :
  1 <= get_requests
         (requests_m (extract_one sample_np_std sample_logs "192.168.1.2")) 60.
Proof.
  apply (windowed_count_at_least_one sample_np_std sample_logs).
  - vm_compute. right. left. reflexivity.
  - simpl. do 4 right. left. reflexivity.
Defined.

(** ** Feature vectors *)





Lemma ips_extract_features (np_std : list Q -> Q) logs :
  map ip (records (extract_features np_std logs)) = ip_set logs.
Proof.
  rewrite records_extract_features, map_map.
  erewrite map_ext; [apply map_id |]. intros addr. apply ip_extract_one.
Qed.


(** In binary64 too the two ratios add up to exactly 1.0, for every group
    of at most 512 entries. *)
Lemma ratios_binary64_small_groups (errors n : Z) :
  1 <= n <= 512 -> 0 <= errors <= n ->
  PrimFloat.eqb (ratio_sum_binary64 errors n) (float_of_int 1) = true.
Proof.
  intros Hn He.
  assert (Hall : ratio_sums_are_one 512 = true) by (vm_compute; reflexivity).
  unfold ratio_sums_are_one in Hall. rewrite forallb_forall in Hall.
  specialize (Hall n). rewrite forallb_forall in Hall.
  apply Hall.
  - apply in_map_iff. exists (Z.to_nat n). split; [lia |].
    apply in_seq. lia.
  - apply in_map_iff. exists (Z.to_nat errors). split; [lia |].
    apply in_seq. lia.
Qed.

(** ** Risk levels *)

Lemma Qltb_lt (x y : Q) : Qltb x y = true <-> (x < y)%Q.
Proof.
  unfold Qltb. rewrite negb_true_iff. split.
  - intros H. apply Qnot_le_lt. intros Hle.
    apply Qle_bool_iff in Hle. congruence.
  - intros H. destruct (Qle_bool y x) eqn:Hb; [| reflexivity].
    apply Qle_bool_iff in Hb. exfalso. now apply (Qlt_not_le x y).
Qed.

Lemma Qltb_dec (x y : Q) :
  Qltb x y = if Qlt_le_dec x y then true else false.
Proof.
  destruct (Qlt_le_dec x y) as [H | H].
  - now apply Qltb_lt.
  - destruct (Qltb x y) eqn:Hb; [| reflexivity].
    apply Qltb_lt in Hb. exfalso. now apply (Qlt_not_le x y).
Qed.

(** The accumulated score is the sum of the four contributions. *)
Lemma risk_score_spec (row : Result) :
  risk_score row
  = spec_risk_score (request_count row) (avg_time_between_requests row)
      (error_ratio row) (user_agent_count row).
Proof.
  unfold risk_score, spec_risk_score, Qgtb. rewrite !Qltb_dec.
  destruct (request_count row >? 1000), (request_count row >? 500),
    (Qlt_le_dec (avg_time_between_requests row) 0.1),
    (Qlt_le_dec 0.5 (error_ratio row)), (user_agent_count row >? 10);
    reflexivity.
Qed.

Lemma calculate_risk_level_spec (row : Result) :
  _calculate_risk_level row = spec_risk_level (risk_score row).
Proof.
  unfold _calculate_risk_level, spec_risk_level.
  rewrite !Z.geb_leb. reflexivity.
Qed.

Lemma mapM_Ok_map {A B : Type} (f : A -> result B) (g : A -> B) (l : list A) :
  (forall x, In x l -> f x = Ok (g x)) -> mapM f l = Ok (map g l).
Proof.
  induction l as [| x l IH]; intros Hf; [reflexivity |].
  cbn [mapM map]. rewrite (Hf x (or_introl eq_refl)). cbn.
  rewrite IH; [reflexivity |]. intros y Hy. apply Hf. now right.
Qed.

Lemma has_columns_In {A : Type} (df : DataFrame A) keys key :
  has_columns df keys = true -> In key keys ->
  bool_decide (key ∈ columns df) = true.
Proof.
  unfold has_columns. rewrite forallb_forall. intros H Hin. now apply H.
Qed.

Lemma require_keys_Ok {A : Type} (df : DataFrame A) keys :
  has_columns df keys = true -> require_keys df keys = Ok tt.
Proof.
  induction keys as [| key keys IH]; [reflexivity |].
  cbn [has_columns forallb require_keys]. intros [Hk Hks]%andb_true_iff.
  rewrite Hk. now apply IH.
Qed.

Lemma get_column_Ok {A B : Type} (df : DataFrame A) col (value : A -> B) :
  bool_decide (col ∈ columns df) = true ->
  get_column df col value = Ok (map value (records df)).
Proof. unfold get_column. now intros ->. Qed.

(** C4: for every address labelled an outlier, the risk score is the sum
    of 3 points for more than 1000 requests and otherwise 2 for more than
    500, 3 for an average inter-arrival time below 0.1, 2 for an error
    ratio above 0.5 and 2 for more than 10 user agents; and the anomaly
    report holds the level of that score: High from 8 points, Medium from
    5, else Low. *)
Theorem risk_level_rule (df : DataFrame Result) :
  has_columns df
    ["anomaly_score"; "ip"; "request_count"; "avg_time_between_requests";
     "error_ratio"; "user_agent_count"] = true ->
  (forall row : Result,
     In row (records df) -> anomaly_score row = -1 ->
     risk_score row
     = spec_risk_score (request_count row) (avg_time_between_requests row)
         (error_ratio row) (user_agent_count row))
  /\ _analyze_anomalies df
     = Ok (map spec_anomaly_info
             (List.filter (fun row => anomaly_score row =? -1) (records df))).
Proof.
  intros Hcols. split; [intros row _ _; apply risk_score_spec |].
  unfold _analyze_anomalies.
  rewrite get_column_Ok
    by (apply (has_columns_In df _ _ Hcols); cbn; tauto).
  cbn [mbind result_bind select_rows records].
  apply mapM_Ok_map. intros row _. unfold anomaly_entry.
  rewrite require_keys_Ok.
  - cbn [mbind result_bind]. unfold spec_anomaly_info.
    now rewrite calculate_risk_level_spec, risk_score_spec.
  - cbn [has_columns forallb select_rows columns].
    cbn [has_columns forallb] in Hcols.
    repeat (apply andb_true_iff in Hcols as [? Hcols]).
    repeat (apply andb_true_iff; split); assumption.
Qed.

Lemma risk_level_rule_witness :
  (forall row : Result,
     In row (records sample_results) -> anomaly_score row = -1 ->
     risk_score row
     = spec_risk_score (request_count row) (avg_time_between_requests row)
         (error_ratio row) (user_agent_count row))
  /\ _analyze_anomalies sample_results
     = Ok (map spec_anomaly_info
             (List.filter (fun row => anomaly_score row =? -1)
                (records sample_results))).
Proof.
  apply (risk_level_rule sample_results). vm_compute. reflexivity.
Defined.

Example scenario_B_risk_level :
  _analyze_anomalies sample_results
  = Ok [ {| anomaly_ip := "10.0.0.1";
            anomaly_request_count := 1500;
            unusual_patterns :=
              ["Extremely high request count"; "Unusually rapid requests";
               "High error rate"; "Multiple user agents"];
            risk_level := "High" |} ].
Proof. vm_compute. reflexivity. Qed.

Lemma spec_risk_score_mono (c c' : Z) (a a' e e' : Q) (u u' : Z) :
  c <= c' -> (a' <= a)%Q -> (e <= e')%Q -> u <= u' ->
  spec_risk_score c a e u <= spec_risk_score c' a' e' u'.
Proof.
  intros Hc Ha He Hu. unfold spec_risk_score.
  assert (H1 : (if c >? 1000 then 3 else if c >? 500 then 2 else 0)
               <= (if c' >? 1000 then 3 else if c' >? 500 then 2 else 0)).
  { destruct (Z.gtb_spec c 1000), (Z.gtb_spec c 500),
      (Z.gtb_spec c' 1000), (Z.gtb_spec c' 500); lia. }
  assert (H2 : (if Qlt_le_dec a 0.1 then 3 else 0)
               <= (if Qlt_le_dec a' 0.1 then 3 else 0)).
  { destruct (Qlt_le_dec a 0.1) as [Hlt | Hge],
      (Qlt_le_dec a' 0.1) as [Hlt' | Hge']; try lia.
    exfalso. apply (Qlt_irrefl a').
    apply Qle_lt_trans with a; [exact Ha |].
    apply Qlt_le_trans with 0.1%Q; assumption. }
  assert (H3 : (if Qlt_le_dec 0.5 e then 2 else 0)
               <= (if Qlt_le_dec 0.5 e' then 2 else 0)).
  { destruct (Qlt_le_dec 0.5 e) as [Hlt | Hge],
      (Qlt_le_dec 0.5 e') as [Hlt' | Hge']; try lia.
    exfalso. apply (Qlt_irrefl e).
    apply Qle_lt_trans with e'; [exact He |].
    apply Qle_lt_trans with 0.5%Q; assumption. }
  assert (H4 : (if u >? 10 then 2 else 0) <= (if u' >? 10 then 2 else 0)).
  { destruct (Z.gtb_spec u 10), (Z.gtb_spec u' 10); lia. }
  lia.
Qed.

Lemma risk_rank_spec_level (total : Z) :
  risk_rank (spec_risk_level total)
  = if 8 <=? total then 2 else if 5 <=? total then 1 else 0.
Proof.
  unfold spec_risk_level.
  destruct (8 <=? total); [reflexivity |].
  destruct (5 <=? total); reflexivity.
Qed.

Lemma risk_rank_level_mono (s s' : Z) :
  s <= s' ->
  risk_rank (spec_risk_level s) <= risk_rank (spec_risk_level s').
Proof.
  intros Hs. rewrite !risk_rank_spec_level.
  destruct (Z.leb_spec 8 s), (Z.leb_spec 5 s),
    (Z.leb_spec 8 s'), (Z.leb_spec 5 s'); lia.
Qed.

(** C5: raising the request count, lowering the average inter-arrival
    time, raising the error ratio or raising the number of user agents,
    the other metrics being held fixed or moved the same way, never lowers
    the risk level in the order Low < Medium < High. *)
Theorem risk_level_monotone (row row' : Result) :
  request_count row <= request_count row' ->
  (avg_time_between_requests row' <= avg_time_between_requests row)%Q ->
  (error_ratio row <= error_ratio row')%Q ->
  user_agent_count row <= user_agent_count row' ->
  risk_rank (_calculate_risk_level row)
  <= risk_rank (_calculate_risk_level row').
Proof.
  intros Hc Ha He Hu.
  rewrite !calculate_risk_level_spec, !risk_score_spec.
  apply risk_rank_level_mono. now apply spec_risk_score_mono.
Qed.

Lemma risk_level_monotone_witness :
  risk_rank (_calculate_risk_level (sample_result "10.0.0.2" 20 0.05 0.6 1 1))
  <= risk_rank (_calculate_risk_level (sample_result "10.0.0.2" 1500 0.05 0.6 1 1)).
Proof.
  apply (risk_level_monotone (sample_result "10.0.0.2" 20 0.05 0.6 1 1)
           (sample_result "10.0.0.2" 1500 0.05 0.6 1 1)).
  - simpl. lia.
  - vm_compute. discriminate.
  - vm_compute. discriminate.
  - simpl. lia.
Defined.

(** ** Recommendations *)

(** Closes [NoDup l] for a list of distinct string constants. *)
Ltac nodup_strings :=
  repeat (apply NoDup_cons_2;
          [ rewrite list_elem_of_In; cbn [In]; intros H;
            repeat (destruct H as [H | H]; try discriminate H); exact H
          | ]);
  apply NoDup_nil_2.

(** The list that a run of the four checks leaves, from their outcomes. *)
Lemma recommendations_of_checks (b1 b2 b3 b4 : bool) :
  let recs :=
    (if b1 then [rate_limiting] else [])
    ++ (if b2 then [monitor_user_agents] else [])
    ++ (if b3 then [investigate_errors] else [])
    ++ (if b4 then [timing_analysis] else []) in
  NoDup recs
  /\ sublist recs all_recommendations
  /\ (In rate_limiting recs <-> b1 = true)
  /\ (In monitor_user_agents recs <-> b2 = true)
  /\ (In investigate_errors recs <-> b3 = true)
  /\ (In timing_analysis recs <-> b4 = true).
Proof.
  destruct b1, b2, b3, b4; cbn [app]; unfold all_recommendations;
    (split; [nodup_strings |]);
    (split; [repeat first [apply sublist_nil | apply sublist_skip
                          | apply sublist_cons] |]);
    repeat split; cbn [In]; intros H; try reflexivity; try discriminate;
    repeat (destruct H as [H | H]; try discriminate H); tauto.
Qed.


(** The checks that fire, on a frame that has the four columns read. *)
Lemma generate_recommendations_checks (df : DataFrame Result) :
  has_columns df
    ["request_count"; "user_agent_count"; "error_ratio";
     "avg_time_between_requests"] = true ->
  _generate_recommendations df
  = Ok ((if existsb (fun c => c >? 1000)
              (map (fun row : Result => request_count row) (records df))
         then [rate_limiting] else [])
        ++ (if existsb (fun c => c >? 10)
                 (map (fun row : Result => user_agent_count row) (records df))
            then [monitor_user_agents] else [])
        ++ (if existsb (fun e => Qgtb e 0.5)
                 (map (fun row : Result => error_ratio row) (records df))
            then [investigate_errors] else [])
        ++ (if existsb (fun t => Qltb t 0.1)
                 (map (fun row : Result => avg_time_between_requests row)
                    (records df))
            then [timing_analysis] else [])).
Proof.
  intros Hcols. unfold _generate_recommendations.
  rewrite !get_column_Ok
    by (apply (has_columns_In df _ _ Hcols); cbn; tauto).
  cbn [mbind result_bind].
  destruct (existsb (fun c => c >? 1000) _),
    (existsb (fun c => c >? 10) _),
    (existsb (fun e => Qgtb e 0.5) _),
    (existsb (fun t => Qltb t 0.1) _); reflexivity.
Qed.



Example scenario_B_recommendations :
  _generate_recommendations sample_results = Ok all_recommendations.
Proof. vm_compute. reflexivity. Qed.

(** ** The high-frequency flag *)

Lemma Q2R_inject_Z (z : Z) : Q2R (inject_Z z) = IZR z.
Proof. unfold Q2R, inject_Z. simpl. lra. Qed.

Lemma two_sqrt_lt (v d : R) :
  (0 <= v)%R -> (2 * sqrt v < d)%R <-> (0 < d /\ 4 * v < d * d)%R.
Proof.
  intros Hv. pose proof (sqrt_pos v) as Hpos.
  pose proof (sqrt_sqrt v Hv) as Hsq. split.
  - intros Hlt. split; [lra |]. nra.
  - intros [Hd Hlt]. destruct (Rlt_dec (2 * sqrt v) d) as [H | H];
      [exact H | exfalso; nra].
Qed.

(** The comparison with [mean + 2 * sqrt var], without the square root. *)
Lemma exceeds_threshold_iff (m v : Q) (c : Z) :
  (0 <= v)%Q ->
  (Q2R m + 2 * sqrt (Q2R v) < IZR c)%R <->
  (m < inject_Z c)%Q /\ (4 * v < (inject_Z c - m) * (inject_Z c - m))%Q.
Proof.
  intros Hv.
  assert (HvR : (0 <= Q2R v)%R).
  { replace 0%R with (Q2R 0) by (unfold Q2R; simpl; lra). now apply Qle_Rle. }
  assert (H4 : Q2R 4 = 4%R) by (unfold Q2R; simpl; lra).
  transitivity (2 * sqrt (Q2R v) < IZR c - Q2R m)%R; [split; lra |].
  rewrite (two_sqrt_lt _ _ HvR). split.
  - intros [Hd Hsq]. split.
    + apply Rlt_Qlt. rewrite Q2R_inject_Z. lra.
    + apply Rlt_Qlt.
      rewrite Q2R_mult, Q2R_mult, Q2R_minus, Q2R_inject_Z, H4. exact Hsq.
  - intros [Hd Hsq]. apply Qlt_Rlt in Hd, Hsq.
    rewrite Q2R_inject_Z in Hd.
    rewrite Q2R_mult, Q2R_mult, Q2R_minus, Q2R_inject_Z, H4 in Hsq.
    split; [lra | exact Hsq].
Qed.

Lemma R_ltb_lt (x y : R) : R_ltb x y = true <-> (x < y)%R.
Proof. unfold R_ltb. destruct (Rlt_dec x y); split; auto; discriminate. Qed.

Lemma exceeds_b_iff (m v : Q) (c : Z) :
  (0 <= v)%Q ->
  exceeds_b (Some m) (Some v) c = true <->
  (Q2R m + 2 * sqrt (Q2R v) < IZR c)%R.
Proof.
  intros Hv. rewrite (exceeds_threshold_iff m v c Hv).
  unfold exceeds_b. now rewrite andb_true_iff, !Qltb_lt.
Qed.

Lemma Qsquare_nonneg (x : Q) : (0 <= x * x)%Q.
Proof. unfold Qle, Qmult. simpl. nia. Qed.

Lemma Qsum_nonneg (xs : list Q) :
  (forall x, In x xs -> (0 <= x)%Q) -> (0 <= Qsum xs)%Q.
Proof.
  induction xs as [| x xs IH]; intros Hpos; simpl; [apply Qle_refl |].
  replace 0%Q with (0 + 0)%Q by reflexivity.
  apply Qplus_le_compat; [apply Hpos; now left |].
  apply IH. intros y Hy. apply Hpos. now right.
Qed.

Lemma squared_deviations_nonneg (xs : list Q) : (0 <= squared_deviations xs)%Q.
Proof.
  unfold squared_deviations. apply Qsum_nonneg.
  intros y (x & <- & _)%in_map_iff. apply Qsquare_nonneg.
Qed.

Lemma Qdiv_nonneg (a : Q) (n : Z) : (0 <= a)%Q -> 0 < n -> (0 <= a / inject_Z n)%Q.
Proof.
  intros Ha Hn. apply Qle_shift_div_l.
  - unfold Qlt. simpl. lia.
  - now rewrite Qmult_0_l.
Qed.

Lemma len_counts_of (rows : list Result) : len (counts_of rows) = len rows.
Proof. unfold len, counts_of. now rewrite length_map. Qed.

Lemma series_var_nonneg (xs : list Q) (v : Q) :
  series_var xs = Some v -> (0 <= v)%Q.
Proof.
  unfold series_var. destruct (Z.ltb_spec (len xs) 2) as [H | H];
    [discriminate |].
  intros [= <-]. apply Qdiv_nonneg; [apply squared_deviations_nonneg | lia].
Qed.

(** The mask of [_get_high_frequency_ips], computed without square root. *)
Lemma get_high_frequency_ips_decide (df : DataFrame Result) :
  bool_decide ("request_count" ∈ columns df) = true ->
  _get_high_frequency_ips df
  = Ok (List.filter
          (fun row : Result =>
             exceeds_b (series_mean (counts_of (records df)))
               (series_var (counts_of (records df))) (request_count row))
          (records df)).
Proof.
  intros Hcol. unfold _get_high_frequency_ips.
  rewrite (get_column_Ok df _ _ Hcol). cbn [mbind result_bind].
  fold (counts_of (records df)). f_equal. apply List.filter_ext. intros row.
  unfold series_std.
  destruct (series_mean (counts_of (records df))) as [m |];
    [| reflexivity].
  destruct (series_var (counts_of (records df))) as [v |] eqn:Hv;
    [| reflexivity].
  cbn [mean_plus_2_std mbind option_bind nan_ltb]. apply Bool.eq_iff_eq_true.
  rewrite R_ltb_lt, exceeds_b_iff; [reflexivity |].
  now apply series_var_nonneg with (counts_of (records df)).
Qed.

(** C3 (amended): an address is flagged high-frequency if and only if its
    request count exceeds the mean of the request counts of the result set
    plus 2 times their sample standard deviation, the one normalised by
    N - 1; a result set of fewer than two addresses flags none. *)
Theorem high_frequency_rule (df : DataFrame Result) :
  bool_decide ("request_count" ∈ columns df) = true ->
  exists high,
    _get_high_frequency_ips df = Ok high
    /\ forall row : Result,
         In row high <->
         In row (records df)
         /\ 2 <= len (records df)
         /\ (mean_R (counts_of (records df))
             + 2 * sample_std_R (counts_of (records df))
             < IZR (request_count row))%R.
Proof.
  intros Hcol. unfold _get_high_frequency_ips.
  rewrite (get_column_Ok df _ _ Hcol). cbn [mbind result_bind].
  fold (counts_of (records df)).
  eexists. split; [reflexivity |]. intros row.
  rewrite filter_In. apply and_iff_compat_l.
  unfold series_std, series_var. rewrite len_counts_of.
  destruct (Z.ltb_spec (len (records df)) 2) as [Hlt | Hge].
  - destruct (series_mean (counts_of (records df))); cbn;
      (split; [discriminate | intros [H _]; lia]).
  - unfold series_mean.
    destruct (counts_of (records df)) as [| c0 cs] eqn:Hcs.
    + exfalso. rewrite <- len_counts_of, Hcs in Hge.
      unfold len in Hge. cbn [length] in Hge. lia.
    + cbn [mbind option_bind mean_plus_2_std nan_ltb]. rewrite R_ltb_lt.
      unfold mean_R, sample_std_R. rewrite <- Hcs, !len_counts_of.
      split; [intros H; split; [exact Hge | exact H] | intros [_ H]; exact H].
Qed.

Lemma high_frequency_rule_witness :
  exists high,
    _get_high_frequency_ips sample_counts = Ok high
    /\ forall row : Result,
         In row high <->
         In row (records sample_counts)
         /\ 2 <= len (records sample_counts)
         /\ (mean_R (counts_of (records sample_counts))
             + 2 * sample_std_R (counts_of (records sample_counts))
             < IZR (request_count row))%R.
Proof.
  apply (high_frequency_rule sample_counts). vm_compute. reflexivity.
Defined.

(** C3, as stated, fails: among six addresses with 1, 1, 1, 1, 3 and 7
    requests, the one with 7 exceeds the mean plus 2 population standard
    deviations (about 6.76), and the code flags no address (its threshold
    is about 7.18). *)
Lemma high_frequency_not_population_std :
  _get_high_frequency_ips sample_counts = Ok []
  /\ exists row : Result,
       In row (records sample_counts)
       /\ (mean_R (counts_of (records sample_counts))
           + 2 * population_std_R (counts_of (records sample_counts))
           < IZR (request_count row))%R.
Proof.
  split.
  - rewrite get_high_frequency_ips_decide by (vm_compute; reflexivity).
    vm_compute. reflexivity.
  - exists (sample_result "10.0.0.6" 7 30 0 1 1). split.
    + cbn. tauto.
    + unfold mean_R, population_std_R. apply exceeds_threshold_iff.
      * apply Qdiv_nonneg; [apply squared_deviations_nonneg | vm_compute; reflexivity].
      * split; vm_compute; reflexivity.
Qed.

(** ** The empty batch *)

Lemma extract_features_nil (np_std : list Q -> Q) :
  extract_features np_std [] = {| columns := []; records := [] |}.
Proof. reflexivity. Qed.

(** A results frame without the feature columns stops the detailed
    analysis at its first column lookup. *)
Lemma get_detailed_analysis_no_request_count (df : DataFrame Result) :
  bool_decide ("request_count" ∈ columns df) = false ->
  get_detailed_analysis df = Raise (KeyError "request_count").
Proof.
  intros Hcol. unfold get_detailed_analysis, _get_high_frequency_ips, get_column.
  now rewrite Hcol.
Qed.

Section Runs.

Variable np_std : list Q -> Q.
Variables ScalerFit ForestFit ClusterFit : Type.
Variable scaler_fit_transform
  : list (list Q) -> result (ScalerFit * list (list Q)).
Variable isolation_forest_fit_predict
  : IsolationForest -> list (list Q) -> result (ForestFit * list Z).
Variable dbscan_fit_predict
  : DBSCAN -> list (list Q) -> result (ClusterFit * list Z).

Abbreviation analyze :=
  (analyze_patterns scaler_fit_transform isolation_forest_fit_predict
     dbscan_fit_predict).
Abbreviation run :=
  (run_pipeline np_std scaler_fit_transform isolation_forest_fit_predict
     dbscan_fit_predict).

Lemma analyze_patterns_nil now self results_df metrics :
  fst (analyze now (extract_features np_std []) self) = Ok (results_df, metrics) ->
  results_df = {| columns := ["anomaly_score"; "cluster_label"]; records := [] |}.
Proof.
  rewrite extract_features_nil. unfold analyze_patterns.
  cbn [columns records filter list_filter select_columns map].
  destruct (scaler_fit_transform []) as [[fit1 X_scaled] | e];
    [| discriminate].
  destruct (isolation_forest_fit_predict _ X_scaled)
    as [[fit2 if_predictions] | e]; [| discriminate].
  destruct (dbscan_fit_predict _ X_scaled) as [[fit3 dbscan_labels] | e];
    [| discriminate].
  unfold assign_labels. cbn [records columns app].
  destruct (negb (len if_predictions =? len [])); [discriminate |].
  destruct (negb (len dbscan_labels =? len [])); [discriminate |].
  cbn [fst zip_labels]. now intros [= <- _].
Qed.

Lemma run_pipeline_nil_raises now self :
  exists e, fst (run now [] self) = Raise e.
Proof.
  unfold run_pipeline.
  pose proof (analyze_patterns_nil now self) as Hnil.
  destruct (analyze now (extract_features np_std []) self)
    as [[[results_df metrics] | e] self'].
  - rewrite (Hnil results_df metrics eq_refl).
    rewrite get_detailed_analysis_no_request_count by reflexivity.
    eexists. reflexivity.
  - eexists. reflexivity.
Qed.

Lemma run_pipeline_nil_KeyError now self fit1 X_scaled fit2 fit3 :
  scaler_fit_transform [] = Ok (fit1, X_scaled) ->
  isolation_forest_fit_predict (isolation_forest self) X_scaled = Ok (fit2, []) ->
  dbscan_fit_predict (dbscan self) X_scaled = Ok (fit3, []) ->
  fst (run now [] self) = Raise (KeyError "request_count").
Proof.
  intros Hs Hi Hd. unfold run_pipeline, analyze_patterns.
  rewrite extract_features_nil.
  cbn [columns records filter list_filter select_columns map].
  rewrite Hs. cbn [set_scaler isolation_forest]. rewrite Hi.
  cbn [set_isolation_forest_fit set_scaler dbscan]. rewrite Hd. reflexivity.
Qed.

(** C1 (amended): on an empty batch the feature extraction returns an
    empty result set, without rows or columns, and the pipeline raises: an
    estimator refuses the empty matrix, or else the first column lookup of
    the detailed analysis fails with KeyError 'request_count'. No metrics
    and no recommendation list are returned. *)
Theorem empty_batch_raises now self :
  extract_features np_std [] = {| columns := []; records := [] |}
  /\ (exists e, fst (run now [] self) = Raise e)
  /\ (forall fit1 X_scaled fit2 fit3,
        scaler_fit_transform [] = Ok (fit1, X_scaled) ->
        isolation_forest_fit_predict (isolation_forest self) X_scaled
        = Ok (fit2, []) ->
        dbscan_fit_predict (dbscan self) X_scaled = Ok (fit3, []) ->
        fst (run now [] self) = Raise (KeyError "request_count")).
Proof.
  split; [apply extract_features_nil |].
  split; [apply run_pipeline_nil_raises | apply run_pipeline_nil_KeyError].
Qed.

(** ** Two runs on one batch *)






End Runs.

(** C1, as stated, fails: whatever the estimators do with the empty
    matrix, and whatever the classifier has fitted before, the pipeline
    returns nothing on the empty batch. *)
Lemma empty_batch_no_result :
  ~ exists (np_std : list Q -> Q) (ScalerFit ForestFit ClusterFit : Type)
      (scaler_fit_transform
         : list (list Q) -> result (ScalerFit * list (list Q)))
      (isolation_forest_fit_predict
         : IsolationForest -> list (list Q) -> result (ForestFit * list Z))
      (dbscan_fit_predict
         : DBSCAN -> list (list Q) -> result (ClusterFit * list Z))
      now self out,
      fst (run_pipeline np_std scaler_fit_transform isolation_forest_fit_predict
             dbscan_fit_predict now [] self) = Ok out.
Proof.
  intros (np_std & S & F & C & f & g & h & now & self & out & Hrun).
  destruct (run_pipeline_nil_raises np_std S F C f g h now self) as (e & He).
  congruence.
Qed.

(** * Further properties of the code *)

(** ** [_count_requests_in_window] *)

Lemma sum_1_for_le_len {A : Type} (p : A -> bool) (xs : list A) :
  sum_1_for p xs <= len xs.
Proof.
  unfold len. induction xs as [| x xs IH]; simpl; [lia |].
  destruct (p x); lia.
Qed.

Lemma sum_1_for_all {A : Type} (p : A -> bool) (xs : list A) :
  (forall x, In x xs -> p x = true) -> sum_1_for p xs = len xs.
Proof.
  unfold len. induction xs as [| x xs IH]; intros Hall; [reflexivity |].
  cbn [sum_1_for length]. rewrite (Hall x (or_introl eq_refl)).
  rewrite IH; [lia |]. intros y Hy. apply Hall. now right.
Qed.


Lemma sum_1_for_map {A B : Type} (g : A -> B) (p : B -> bool) (xs : list A) :
  sum_1_for p (map g xs) = sum_1_for (fun x => p (g x)) xs.
Proof. induction xs as [| x xs IH]; simpl; [reflexivity | now rewrite IH]. Qed.

Lemma sum_1_for_ext {A : Type} (p q : A -> bool) (xs : list A) :
  (forall x, p x = q x) -> sum_1_for p xs = sum_1_for q xs.
Proof.
  intros Hpq. induction xs as [| x xs IH]; simpl; [reflexivity |].
  now rewrite Hpq, IH.
Qed.

Lemma count_requests_le_len (ts : list datetime) (window_minutes : Z) :
  0 <= _count_requests_in_window ts window_minutes <= len ts.
Proof.
  destruct ts as [| t0 ts0] eqn:Hts; [change (0 <= 0 <= 0); lia |].
  rewrite <- Hts. assert (Hne : ts <> []) by (rewrite Hts; discriminate).
  destruct (count_requests_is_max ts window_minutes Hne)
    as [_ (t & Hin & ->)].
  split; [apply closed_count_nonneg | apply sum_1_for_le_len].
Qed.


Lemma closed_count_shift ts w d t :
  closed_count (map (Z.add d) ts) w (d + t) = closed_count ts w t.
Proof.
  unfold closed_count. rewrite sum_1_for_map. apply sum_1_for_ext.
  intros x. f_equal.
  - destruct (Z.leb_spec (d + t - w) (d + x)), (Z.leb_spec (t - w) x);
      try reflexivity; lia.
  - destruct (Z.leb_spec (d + x) (d + t)), (Z.leb_spec x t);
      try reflexivity; lia.
Qed.

(** X2: moving every timestamp by the same amount leaves the count as it
    is. *)
Theorem count_requests_shift (ts : list datetime) (window_minutes d : Z) :
  _count_requests_in_window (map (Z.add d) ts) window_minutes
  = _count_requests_in_window ts window_minutes.
Proof.
  destruct ts as [| t0 ts0] eqn:Hts; [reflexivity |].
  rewrite <- Hts. assert (Hne : ts <> []) by (rewrite Hts; discriminate).
  assert (Hne' : map (Z.add d) ts <> []) by (rewrite Hts; discriminate).
  apply (is_max_over_unique
           (closed_count (map (Z.add d) ts) (timedelta_minutes window_minutes))
           (map (Z.add d) ts)).
  - now apply count_requests_is_max.
  - destruct (count_requests_is_max ts window_minutes Hne) as [Hub Hex].
    split.
    + intros t' (t & <- & Hin)%in_map_iff. rewrite closed_count_shift.
      now apply Hub.
    + destruct Hex as (t & Hin & Heq). exists (d + t). split.
      * apply in_map_iff. eauto.
      * now rewrite closed_count_shift.
Qed.

(** X3: the count does not depend on the order of the timestamps. *)
Theorem count_requests_any_order (ts ts' : list datetime) (window_minutes : Z) :
  Permutation ts ts' ->
  _count_requests_in_window ts window_minutes
  = _count_requests_in_window ts' window_minutes.
Proof. apply count_requests_Permutation. Qed.

Lemma count_requests_any_order_witness :
  _count_requests_in_window [60000000; 0; 30000000] 1
  = _count_requests_in_window [0; 30000000; 60000000] 1.
Proof.
  apply (count_requests_any_order [60000000; 0; 30000000]
           [0; 30000000; 60000000] 1).
  apply (Permutation_cons_append [0; 30000000] 60000000).
Defined.

Lemma list_max_element (ts : list Z) :
  ts <> [] -> exists m, In m ts /\ forall t, In t ts -> t <= m.
Proof.
  induction ts as [| t0 ts IH]; [congruence |]. intros _.
  destruct ts as [| t1 ts'].
  - exists t0. split; [now left |]. intros t [<- | []]. lia.
  - destruct IH as (m & Hin & Hmax); [discriminate |].
    destruct (Z.le_gt_cases t0 m) as [Hle | Hgt].
    + exists m. split; [now right |]. intros t [<- | Ht]; [exact Hle | now apply Hmax].
    + exists t0. split; [now left |]. intros t [<- | Ht]; [lia |].
      specialize (Hmax t Ht). lia.
Qed.

(** X4: when no two timestamps are further apart than the window is long,
    the count is the number of timestamps. *)
Theorem count_requests_saturates (ts : list datetime) (window_minutes : Z) :
  (forall t t', In t ts -> In t' ts -> t' - t <= timedelta_minutes window_minutes) ->
  _count_requests_in_window ts window_minutes = len ts.
Proof.
  intros Hspan. destruct ts as [| t0 ts0] eqn:Hts; [reflexivity |].
  rewrite <- Hts in *. assert (Hne : ts <> []) by (rewrite Hts; discriminate).
  destruct (count_requests_is_max ts window_minutes Hne) as [Hub _].
  destruct (list_max_element ts Hne) as (m & Hm & Hmax).
  pose proof (proj2 (count_requests_le_len ts window_minutes)) as Hle.
  specialize (Hub m Hm).
  assert (Hall : closed_count ts (timedelta_minutes window_minutes) m = len ts).
  { apply sum_1_for_all. intros x Hx. apply andb_true_iff.
    specialize (Hspan x m Hx Hm). specialize (Hmax x Hx).
    split; apply Z.leb_le; lia. }
  lia.
Qed.

Lemma count_requests_saturates_witness :
  _count_requests_in_window [0; 30000000; 60000000] 1
  = len [0; 30000000; 60000000].
Proof.
  apply (count_requests_saturates [0; 30000000; 60000000] 1).
  intros t t' Ht Ht'. cbn [In] in Ht, Ht'. unfold timedelta_minutes. lia.
Defined.

(** ** [extract_features] *)

Lemma len_filter_sum {A : Type} (P : A -> Prop) `{!forall x, Decision (P x)}
    (l : list A) :
  len (filter P l) = sum_1_for (fun x => bool_decide (P x)) l.
Proof.
  unfold len. induction l as [| x l IH]; [reflexivity |].
  rewrite filter_cons. cbn [sum_1_for]. destruct (decide (P x)) as [HP | HP].
  - rewrite (bool_decide_eq_true_2 _ HP). cbn [length]. lia.
  - rewrite (bool_decide_eq_false_2 _ HP). lia.
Qed.

Lemma sum_Z_cons (x : Z) (xs : list Z) : sum_Z (x :: xs) = x + sum_Z xs.
Proof. reflexivity. Qed.

Lemma sum_Z_map_add {K : Type} (f g : K -> Z) (keys : list K) :
  sum_Z (map (fun k => f k + g k) keys)
  = sum_Z (map f keys) + sum_Z (map g keys).
Proof.
  induction keys as [| k keys IH]; [reflexivity |].
  cbn [map]. rewrite !sum_Z_cons, IH. lia.
Qed.

Lemma sum_Z_indicator {K : Type} `{EqDecision K} (x : K) (keys : list K) :
  NoDup keys ->
  sum_Z (map (fun k => if bool_decide (x = k) then 1 else 0) keys)
  = if bool_decide (x ∈ keys) then 1 else 0.
Proof.
  induction 1 as [| k keys Hk Hnd IH]; [reflexivity |].
  cbn [map]. rewrite sum_Z_cons, IH. destruct (decide (x = k)) as [-> | Hne].
  - rewrite (bool_decide_eq_true_2 (k = k) eq_refl).
    rewrite (bool_decide_eq_false_2 _ Hk).
    rewrite (bool_decide_eq_true_2 (k ∈ k :: keys)); [lia | left].
  - rewrite (bool_decide_eq_false_2 _ Hne).
    destruct (decide (x ∈ keys)) as [Hin | Hin].
    + rewrite (bool_decide_eq_true_2 _ Hin).
      rewrite (bool_decide_eq_true_2 (x ∈ k :: keys)); [lia | now right].
    + rewrite (bool_decide_eq_false_2 _ Hin).
      rewrite (bool_decide_eq_false_2 (x ∈ k :: keys)); [lia |].
      intros [-> | H']%elem_of_cons; contradiction.
Qed.

(** Counting the elements of a list key by key, over distinct keys, counts
    the elements whose key is one of them. *)
Lemma sum_Z_partition {A K : Type} `{EqDecision K} (key : A -> K)
    (keys : list K) (l : list A) :
  NoDup keys ->
  sum_Z (map (fun k => sum_1_for (fun a => bool_decide (key a = k)) l) keys)
  = sum_1_for (fun a => bool_decide (key a ∈ keys)) l.
Proof.
  intros Hnd. induction l as [| a l IH].
  - cbn [sum_1_for]. clear Hnd.
    induction keys as [| k keys IHk]; [reflexivity |].
    cbn [map]. rewrite sum_Z_cons, IHk. reflexivity.
  - cbn [sum_1_for]. rewrite sum_Z_map_add, IH, (sum_Z_indicator (key a) keys Hnd).
    reflexivity.
Qed.

Lemma ip_set_elem logs log :
  In log logs -> log_ip log ∈ ip_set logs.
Proof.
  intros Hin. apply list_elem_of_In, ip_set_spec. eauto.
Qed.

(** X5: the request counts of the feature vectors add up to the number of
    log entries of the batch. *)
Theorem request_counts_sum (np_std : list Q -> Q) (logs : list Log) :
  sum_Z (map request_count (records (extract_features np_std logs)))
  = len logs.
Proof.
  rewrite records_extract_features, map_map.
  rewrite (map_ext _ (fun addr =>
             sum_1_for (fun log => bool_decide (log_ip log = addr)) logs)).
  - rewrite (sum_Z_partition log_ip (ip_set logs) logs (ip_set_NoDup logs)).
    apply sum_1_for_all. intros log Hin.
    apply bool_decide_eq_true_2. now apply ip_set_elem.
  - intros addr. rewrite request_count_extract_one. unfold logs_of.
    apply len_filter_sum.
Qed.
















(** ** [analyze_patterns] *)

Lemma zip_labels_spec (rows : list Feature) (scores labels : list Z) :
  length scores = length rows -> length labels = length rows ->
  map feature (zip_labels rows scores labels) = rows
  /\ map anomaly_score (zip_labels rows scores labels) = scores
  /\ map cluster_label (zip_labels rows scores labels) = labels.
Proof.
  revert scores labels.
  induction rows as [| f rows IH]; intros [| s scores] [| l labels] Hs Hl;
    try discriminate; [repeat split |].
  cbn [zip_labels map feature anomaly_score cluster_label].
  destruct (IH scores labels) as (H1 & H2 & H3);
    [now injection Hs | now injection Hl |].
  now rewrite H1, H2, H3.
Qed.

Lemma len_eq_length {A B : Type} (xs : list A) (ys : list B) :
  len xs = len ys <-> length xs = length ys.
Proof. unfold len. lia. Qed.

Lemma len_map {A B : Type} (g : A -> B) (xs : list A) : len (map g xs) = len xs.
Proof. unfold len. now rewrite length_map. Qed.

Lemma len_set_Z_bounds (xs : list Z) :
  0 <= len_set_Z xs <= len xs /\ (forall x, In x xs -> 1 <= len_set_Z xs).
Proof.
  unfold len_set_Z, len. split; [split; [lia |] |].
  - induction xs as [| x xs IH].
    { cbn [list_to_set length]. rewrite size_empty. lia. }
    cbn [list_to_set length]. rewrite size_union_alt, size_singleton.
    assert (Hsub : (size ((list_to_set xs : gset Z) ∖ {[x]})
                    <= size (list_to_set xs : gset Z))%nat).
    { apply subseteq_size. intros y [Hy _]%elem_of_difference. exact Hy. }
    lia.
  - intros x Hx.
    assert (Hsz : size (list_to_set xs : gset Z) <> 0%nat).
    { apply size_non_empty_iff. intros Hempty.
      assert (Hin : x ∈ (list_to_set xs : gset Z))
        by now apply elem_of_list_to_set, list_elem_of_In.
      rewrite Hempty in Hin. now apply not_elem_of_empty in Hin. }
    lia.
Qed.

Section AnalyzeFacts.

Variables ScalerFit ForestFit ClusterFit : Type.
Variable scaler_fit_transform
  : list (list Q) -> result (ScalerFit * list (list Q)).
Variable isolation_forest_fit_predict
  : IsolationForest -> list (list Q) -> result (ForestFit * list Z).
Variable dbscan_fit_predict
  : DBSCAN -> list (list Q) -> result (ClusterFit * list Z).

Abbreviation analyze' :=
  (analyze_patterns scaler_fit_transform isolation_forest_fit_predict
     dbscan_fit_predict).

(** What [analyze_patterns] does once the three estimators have returned. *)
Lemma analyze_patterns_fitted now features_df self
    fit1 X_scaled fit2 if_predictions fit3 dbscan_labels :
  scaler_fit_transform (select_columns features_df (numeric_columns features_df))
  = Ok (fit1, X_scaled) ->
  isolation_forest_fit_predict (isolation_forest self) X_scaled
  = Ok (fit2, if_predictions) ->
  dbscan_fit_predict (dbscan self) X_scaled = Ok (fit3, dbscan_labels) ->
  analyze' now features_df self
  = (match assign_labels features_df if_predictions dbscan_labels with
     | Raise e => Raise e
     | Ok results_df =>
         Ok (results_df,
             {| total_ips := len (records features_df);
                anomaly_count := sum_1_for (fun p => p =? -1) if_predictions;
                cluster_count :=
                  len_set_Z dbscan_labels
                  - (if bool_decide (-1 ∈ dbscan_labels) then 1 else 0);
                noise_points := sum_1_for (fun l => l =? -1) dbscan_labels;
                timestamp := now |})
     end,
     set_dbscan_fit _ _ _
       (set_isolation_forest_fit _ _ _ (set_scaler _ _ _ self fit1) fit2) fit3).
Proof.
  intros Hs Hi Hd. unfold analyze_patterns.
  fold (numeric_columns features_df). rewrite Hs.
  cbn [set_scaler isolation_forest]. rewrite Hi.
  cbn [set_isolation_forest_fit set_scaler dbscan]. rewrite Hd.
  destruct (assign_labels features_df if_predictions dbscan_labels);
    reflexivity.
Qed.

(** X8: when the three estimators return and give one label per row,
    [analyze_patterns] returns the rows of the frame in their order, each
    with its two labels, under the columns of the frame followed by the
    two label columns; the metrics count the rows, the rows labelled -1 by
    each detector, and a number of clusters between 0 and the number of
    rows; and the classifier keeps the three fits. *)
Theorem analyze_patterns_frame_and_metrics now features_df self
    fit1 X_scaled fit2 if_predictions fit3 dbscan_labels :
  scaler_fit_transform (select_columns features_df (numeric_columns features_df))
  = Ok (fit1, X_scaled) ->
  isolation_forest_fit_predict (isolation_forest self) X_scaled
  = Ok (fit2, if_predictions) ->
  dbscan_fit_predict (dbscan self) X_scaled = Ok (fit3, dbscan_labels) ->
  len if_predictions = len (records features_df) ->
  len dbscan_labels = len (records features_df) ->
  exists results_df metrics self',
    analyze' now features_df self = (Ok (results_df, metrics), self')
    /\ columns results_df
       = columns features_df ++ ["anomaly_score"; "cluster_label"]
    /\ map feature (records results_df) = records features_df
    /\ map anomaly_score (records results_df) = if_predictions
    /\ map cluster_label (records results_df) = dbscan_labels
    /\ total_ips metrics = len (records results_df)
    /\ anomaly_count metrics
       = sum_1_for (fun row => anomaly_score row =? -1) (records results_df)
    /\ noise_points metrics
       = sum_1_for (fun row => cluster_label row =? -1) (records results_df)
    /\ 0 <= cluster_count metrics <= total_ips metrics
    /\ timestamp metrics = now
    /\ scaler self' = Some fit1
    /\ isolation_forest_fit self' = Some fit2
    /\ dbscan_fit self' = Some fit3.
Proof.
  intros Hs Hi Hd Hlen1 Hlen2.
  rewrite (analyze_patterns_fitted now features_df self _ _ _ _ _ _ Hs Hi Hd).
  unfold assign_labels. rewrite Hlen1, Hlen2, Z.eqb_refl. cbn [negb].
  destruct (zip_labels_spec (records features_df) if_predictions dbscan_labels)
    as (Hf & Ha & Hc); [now apply len_eq_length | now apply len_eq_length |].
  do 3 eexists. split; [reflexivity |].
  cbn [columns records total_ips anomaly_count noise_points cluster_count
         timestamp scaler isolation_forest_fit dbscan_fit set_dbscan_fit
         set_isolation_forest_fit set_scaler].
  split; [reflexivity |]. split; [exact Hf |]. split; [exact Ha |].
  split; [exact Hc |].
  split; [now rewrite <- (len_map feature), Hf |].
  split; [now rewrite <- (sum_1_for_map anomaly_score (fun p => p =? -1)), Ha |].
  split; [now rewrite <- (sum_1_for_map cluster_label (fun l => l =? -1)), Hc |].
  split; [| repeat split].
  destruct (len_set_Z_bounds dbscan_labels) as [[H0 Hle] Hone].
  rewrite <- Hlen2. destruct (decide (-1 ∈ dbscan_labels)) as [Hin | Hin].
  - rewrite (bool_decide_eq_true_2 _ Hin).
    specialize (Hone (-1) (proj1 (list_elem_of_In _ _) Hin)). lia.
  - rewrite (bool_decide_eq_false_2 _ Hin). lia.
Qed.


End AnalyzeFacts.

Lemma analyze_patterns_frame_and_metrics_witness :
  exists results_df metrics self',
    analyze_patterns sample_scaler sample_forest sample_dbscan 0
      (extract_features sample_np_std sample_logs) (__init__ unit unit unit)
    = (Ok (results_df, metrics), self')
    /\ map feature (records results_df)
       = records (extract_features sample_np_std sample_logs)
    /\ total_ips metrics = len (records results_df)
    /\ anomaly_count metrics
       = sum_1_for (fun row => anomaly_score row =? -1) (records results_df).
Proof.
  edestruct (analyze_patterns_frame_and_metrics unit unit unit
               sample_scaler sample_forest sample_dbscan 0
               (extract_features sample_np_std sample_logs)
               (__init__ unit unit unit))
    as (results_df & metrics & self' & Hrun & _ & Hrows & _ & _ & Htotal
        & Hcount & _);
    [reflexivity | reflexivity | reflexivity
    | vm_compute; reflexivity | vm_compute; reflexivity |].
  exists results_df, metrics, self'. repeat split; assumption.
Defined.


(** ** [_identify_unusual_patterns] and [_calculate_risk_level] *)

(** X10: the unusual patterns of a row and its risk level go together: a
    row without pattern is Low, a row with the four patterns is High, a
    High row has at least three patterns, a Medium row has at least one,
    and a row with three patterns is not Low. *)
Theorem patterns_and_risk_level (row : Result) :
  (_identify_unusual_patterns row = [] -> _calculate_risk_level row = "Low")
  /\ (length (_identify_unusual_patterns row) = 4%nat ->
      _calculate_risk_level row = "High")
  /\ (_calculate_risk_level row = "High" ->
      (3 <= length (_identify_unusual_patterns row))%nat)
  /\ (_calculate_risk_level row = "Medium" ->
      (1 <= length (_identify_unusual_patterns row))%nat)
  /\ ((3 <= length (_identify_unusual_patterns row))%nat ->
      _calculate_risk_level row <> "Low").
Proof.
  unfold _calculate_risk_level, risk_score, _identify_unusual_patterns.
  destruct (request_count row >? 1000), (request_count row >? 500),
    (Qltb (avg_time_between_requests row) 0.1),
    (Qgtb (error_ratio row) 0.5), (user_agent_count row >? 10);
    cbn; repeat split; intros H; try reflexivity; try discriminate;
    try lia.
Qed.

(** ** [_analyze_clusters] *)

Lemma has_columns_incl {A : Type} (df : DataFrame A) (keys keys' : list string) :
  has_columns df keys = true ->
  (forall key, In key keys' -> In key keys) ->
  has_columns df keys' = true.
Proof.
  intros Hcols Hincl. unfold has_columns. apply forallb_forall.
  intros key Hkey. apply (has_columns_In df keys key Hcols), Hincl, Hkey.
Qed.

Lemma has_columns_select_rows {A : Type} (df : DataFrame A) (mask : A -> bool)
    (keys : list string) :
  has_columns (select_rows df mask) keys = has_columns df keys.
Proof. reflexivity. Qed.

Lemma identify_common_patterns_Ok (df : DataFrame Result) :
  has_columns df
    ["request_count"; "avg_time_between_requests"; "unique_paths_ratio"] = true ->
  exists patterns, _identify_common_patterns df = Ok patterns.
Proof.
  intros Hcols. unfold _identify_common_patterns.
  rewrite !get_column_Ok
    by (apply (has_columns_In df _ _ Hcols); cbn; tauto).
  cbn [mbind result_bind]. eexists. reflexivity.
Qed.

Lemma cluster_entry_Ok (df : DataFrame Result) (label : Z) :
  has_columns df
    ["request_count"; "avg_time_between_requests"; "unique_paths_ratio"] = true ->
  cluster_entry df label
  = Ok (if bool_decide (label ≠ -1) then [cluster_info_of df label] else []).
Proof.
  intros Hcols. unfold cluster_entry, cluster_info_of.
  destruct (bool_decide (label ≠ -1)); [| reflexivity].
  set (cluster_data := select_rows df (fun row => cluster_label row =? label)).
  assert (Hcols' : has_columns cluster_data
            ["request_count"; "avg_time_between_requests"; "unique_paths_ratio"]
          = true) by exact Hcols.
  rewrite !get_column_Ok
    by (apply (has_columns_In cluster_data _ _ Hcols'); cbn; tauto).
  cbn [mbind result_bind].
  destruct (identify_common_patterns_Ok cluster_data Hcols') as [patterns ->].
  reflexivity.
Qed.

Lemma concat_map_if {A B : Type} (P : A -> Prop) `{!forall x, Decision (P x)}
    (h : A -> B) (l : list A) :
  concat (map (fun x => if bool_decide (P x) then [h x] else []) l)
  = map h (filter P l).
Proof.
  induction l as [| x l IH]; [reflexivity |].
  cbn [map concat]. rewrite filter_cons, IH.
  destruct (decide (P x)) as [HP | HP].
  - now rewrite (bool_decide_eq_true_2 _ HP).
  - now rewrite (bool_decide_eq_false_2 _ HP).
Qed.

Lemma analyze_clusters_Ok (df : DataFrame Result) :
  has_columns df
    ["cluster_label"; "request_count"; "avg_time_between_requests";
     "unique_paths_ratio"] = true ->
  _analyze_clusters df = Ok (map (cluster_info_of df) (cluster_ids df)).
Proof.
  intros Hcols. unfold _analyze_clusters.
  rewrite get_column_Ok
    by (apply (has_columns_In df _ _ Hcols); cbn; tauto).
  cbn [mbind result_bind].
  rewrite (mapM_Ok_map (cluster_entry df)
             (fun label =>
                if bool_decide (label ≠ -1) then [cluster_info_of df label]
                else [])).
  - cbn [mbind result_bind]. unfold cluster_ids.
    now rewrite (concat_map_if (fun label => label ≠ -1)).
  - intros label _. apply cluster_entry_Ok.
    apply (has_columns_incl df _ _ Hcols). cbn. tauto.
Qed.

Lemma cluster_ids_spec (df : DataFrame Result) (label : Z) :
  In label (cluster_ids df) <->
  label <> -1 /\ exists row, In row (records df) /\ cluster_label row = label.
Proof.
  unfold cluster_ids.
  rewrite <- list_elem_of_In, list_elem_of_filter, merge_sort_Permutation,
    elem_of_remove_dups, list_elem_of_In, in_map_iff.
  split; intros [Hne (row & H1 & H2)]; (split; [exact Hne |]);
    exists row; split; assumption.
Qed.

Lemma StronglySorted_filter {A : Type} (R : relation A) (P : A -> Prop)
    `{!forall x, Decision (P x)} (l : list A) :
  StronglySorted R l -> StronglySorted R (filter P l).
Proof.
  induction 1 as [| x l Hsorted IH Hall]; [constructor |].
  rewrite filter_cons. destruct (decide (P x)); [| exact IH].
  constructor; [exact IH |].
  apply Forall_forall. intros y Hy.
  apply list_elem_of_filter in Hy as [_ Hy].
  rewrite Forall_forall in Hall. now apply Hall.
Qed.

Lemma StronglySorted_le_lt (l : list Z) :
  StronglySorted Z.le l -> NoDup l -> StronglySorted Z.lt l.
Proof.
  induction 1 as [| x l Hsorted IH Hall]; intros Hnd; [constructor |].
  apply NoDup_cons in Hnd as [Hx Hnd].
  constructor; [now apply IH |].
  apply Forall_forall. intros y Hy.
  rewrite Forall_forall in Hall. specialize (Hall y Hy).
  assert (x <> y) by (intros ->; now apply Hx).
  lia.
Qed.

Lemma cluster_ids_sorted (df : DataFrame Result) :
  StronglySorted Z.lt (cluster_ids df).
Proof.
  unfold cluster_ids. apply StronglySorted_filter, StronglySorted_le_lt.
  - apply StronglySorted_merge_sort; apply _.
  - rewrite merge_sort_Permutation. apply NoDup_remove_dups.
Qed.

Lemma len_List_filter {A : Type} (p : A -> bool) (l : list A) :
  len (List.filter p l) = sum_1_for p l.
Proof.
  unfold len. induction l as [| x l IH]; [reflexivity |].
  cbn [List.filter sum_1_for]. destruct (p x); cbn [length]; lia.
Qed.

Lemma sum_1_for_ext_In {A : Type} (p q : A -> bool) (xs : list A) :
  (forall x, In x xs -> p x = q x) -> sum_1_for p xs = sum_1_for q xs.
Proof.
  induction xs as [| x xs IH]; intros Hpq; [reflexivity |].
  cbn [sum_1_for]. rewrite (Hpq x (or_introl eq_refl)), IH; [reflexivity |].
  intros y Hy. apply Hpq. now right.
Qed.

Lemma NoDup_StronglySorted_lt (l : list Z) : StronglySorted Z.lt l -> NoDup l.
Proof.
  induction 1 as [| x l Hsorted IH Hall]; [constructor |].
  apply NoDup_cons. split; [| exact IH].
  intros Hx. rewrite Forall_forall in Hall.
  specialize (Hall x Hx). lia.
Qed.

(** X11: on a frame that has the columns read, [_analyze_clusters]
    returns one entry per label other than -1, in strictly ascending
    order of label: no entry is for the noise label, every row with
    another label belongs to an entry, the size of an entry is the number
    of rows with its label and is at least 1, and the sizes add up to the
    number of rows that are not noise. *)
Theorem analyze_clusters_partition (df : DataFrame Result) :
  has_columns df
    ["cluster_label"; "request_count"; "avg_time_between_requests";
     "unique_paths_ratio"] = true ->
  exists clusters,
    _analyze_clusters df = Ok clusters
    /\ StronglySorted Z.lt (map cluster_id clusters)
    /\ (forall c, In c clusters ->
          cluster_id c <> -1
          /\ 1 <= cluster_size c
          /\ cluster_size c
             = sum_1_for (fun row => cluster_label row =? cluster_id c)
                 (records df))
    /\ (forall row, In row (records df) -> cluster_label row <> -1 ->
          exists c, In c clusters /\ cluster_id c = cluster_label row)
    /\ sum_Z (map cluster_size clusters)
       = sum_1_for (fun row => negb (cluster_label row =? -1)) (records df).
Proof.
  intros Hcols. rewrite (analyze_clusters_Ok df Hcols).
  eexists. split; [reflexivity |].
  assert (Hids : map cluster_id (map (cluster_info_of df) (cluster_ids df))
                 = cluster_ids df).
  { rewrite map_map. apply map_id. }
  assert (Hsize : forall label,
            cluster_size (cluster_info_of df label)
            = sum_1_for (fun row => cluster_label row =? label) (records df)).
  { intros label. unfold cluster_info_of. cbn [cluster_size select_rows records].
    apply len_List_filter. }
  split; [rewrite Hids; apply cluster_ids_sorted |].
  split; [| split].
  - intros c (label & <- & Hlabel)%in_map_iff.
    apply cluster_ids_spec in Hlabel as [Hne (row & Hrow & Heq)].
    cbn [cluster_id cluster_info_of]. rewrite Hsize.
    split; [exact Hne |]. split; [| reflexivity].
    apply (sum_1_for_In _ _ row Hrow). now apply Z.eqb_eq.
  - intros row Hrow Hne. exists (cluster_info_of df (cluster_label row)).
    split; [| reflexivity]. apply in_map, cluster_ids_spec. eauto.
  - rewrite map_map.
    rewrite (map_ext _ (fun label =>
               sum_1_for (fun row => bool_decide (cluster_label row = label))
                 (records df))).
    + rewrite (sum_Z_partition cluster_label (cluster_ids df) (records df)
                 (NoDup_StronglySorted_lt _ (cluster_ids_sorted df))).
      apply sum_1_for_ext_In. intros row Hrow.
      destruct (Z.eqb_spec (cluster_label row) (-1)) as [Heq | Hne]; cbn [negb].
      * apply bool_decide_eq_false_2.
        intros Hin%list_elem_of_In%cluster_ids_spec. now destruct Hin.
      * apply bool_decide_eq_true_2, list_elem_of_In, cluster_ids_spec. eauto.
    + intros label. rewrite Hsize. apply sum_1_for_ext. intros row.
      destruct (Z.eqb_spec (cluster_label row) label) as [Heq | Hne].
      * now rewrite (bool_decide_eq_true_2 _ Heq).
      * now rewrite (bool_decide_eq_false_2 _ Hne).
Qed.

Lemma analyze_clusters_partition_witness :
  exists clusters,
    _analyze_clusters sample_clustered = Ok clusters
    /\ StronglySorted Z.lt (map cluster_id clusters)
    /\ sum_Z (map cluster_size clusters)
       = sum_1_for (fun row => negb (cluster_label row =? -1))
           (records sample_clustered).
Proof.
  destruct (analyze_clusters_partition sample_clustered)
    as (clusters & Hrun & Hsorted & _ & _ & Hsum);
    [vm_compute; reflexivity |].
  exists clusters. repeat split; assumption.
Defined.

Example sample_clustered_report :
  fmap (map (fun c => (cluster_id c, cluster_size c)))
    (_analyze_clusters sample_clustered)
  = Ok [(0, 2); (1, 1)].
Proof.
  rewrite analyze_clusters_Ok by (vm_compute; reflexivity).
  vm_compute. reflexivity.
Qed.

(** ** [get_detailed_analysis] *)

Lemma analyze_anomalies_Ok (df : DataFrame Result) :
  has_columns df
    ["anomaly_score"; "ip"; "request_count"; "avg_time_between_requests";
     "error_ratio"; "user_agent_count"] = true ->
  _analyze_anomalies df
  = Ok (map spec_anomaly_info
          (List.filter (fun row => anomaly_score row =? -1) (records df))).
Proof.
  intros Hcols. unfold _analyze_anomalies.
  rewrite get_column_Ok
    by (apply (has_columns_In df _ _ Hcols); cbn; tauto).
  cbn [mbind result_bind select_rows records].
  apply mapM_Ok_map. intros row _. unfold anomaly_entry.
  rewrite require_keys_Ok.
  - cbn [mbind result_bind]. unfold spec_anomaly_info.
    now rewrite calculate_risk_level_spec, risk_score_spec.
  - rewrite has_columns_select_rows.
    apply (has_columns_incl df _ _ Hcols). cbn. tauto.
Qed.

(** On a frame that has the columns read, the detailed analysis returns
    its four parts. *)
Lemma get_detailed_analysis_Ok (df : DataFrame Result) :
  has_columns df analysis_keys = true ->
  exists high recs,
    _get_high_frequency_ips df = Ok high
    /\ _generate_recommendations df = Ok recs
    /\ get_detailed_analysis df
       = Ok {| high_frequency_ips := high;
               pattern_clusters := map (cluster_info_of df) (cluster_ids df);
               anomaly_patterns :=
                 map spec_anomaly_info
                   (List.filter (fun row => anomaly_score row =? -1)
                      (records df));
               recommendations := recs |}.
Proof.
  intros Hcols. unfold get_detailed_analysis.
  rewrite (get_high_frequency_ips_decide df)
    by (apply (has_columns_In df _ _ Hcols); cbn; tauto).
  rewrite (analyze_clusters_Ok df)
    by (apply (has_columns_incl df _ _ Hcols); cbn; tauto).
  rewrite (analyze_anomalies_Ok df)
    by (apply (has_columns_incl df _ _ Hcols); cbn; tauto).
  rewrite (generate_recommendations_checks df)
    by (apply (has_columns_incl df _ _ Hcols); cbn; tauto).
  do 2 eexists. split; [reflexivity |]. split; reflexivity.
Qed.

Lemma unusual_patterns_spec (row : Result) :
  (In "Extremely high request count" (_identify_unusual_patterns row) <->
   (request_count row >? 1000) = true)
  /\ (In "Unusually rapid requests" (_identify_unusual_patterns row) <->
      Qltb (avg_time_between_requests row) 0.1 = true)
  /\ (In "High error rate" (_identify_unusual_patterns row) <->
      Qgtb (error_ratio row) 0.5 = true)
  /\ (In "Multiple user agents" (_identify_unusual_patterns row) <->
      (user_agent_count row >? 10) = true).
Proof.
  unfold _identify_unusual_patterns.
  destruct (request_count row >? 1000),
    (Qltb (avg_time_between_requests row) 0.1),
    (Qgtb (error_ratio row) 0.5), (user_agent_count row >? 10);
    cbn [app In]; repeat split; intros H; try reflexivity; try discriminate;
    repeat (destruct H as [H | H]; try discriminate H); tauto.
Qed.

(** X12: on a frame that has the columns read, the detailed analysis
    returns, and every pattern in its anomaly report has its
    recommendation in the list: a high request count brings the rate
    limiting, rapid requests the timing analysis, a high error rate the
    investigation of errors, and multiple user agents their monitoring. *)
Theorem patterns_bring_recommendations (df : DataFrame Result) :
  has_columns df analysis_keys = true ->
  exists analysis,
    get_detailed_analysis df = Ok analysis
    /\ forall a, In a (anomaly_patterns analysis) ->
         (In "Extremely high request count" (unusual_patterns a) ->
          In rate_limiting (recommendations analysis))
         /\ (In "Unusually rapid requests" (unusual_patterns a) ->
             In timing_analysis (recommendations analysis))
         /\ (In "High error rate" (unusual_patterns a) ->
             In investigate_errors (recommendations analysis))
         /\ (In "Multiple user agents" (unusual_patterns a) ->
             In monitor_user_agents (recommendations analysis)).
Proof.
  intros Hcols.
  destruct (get_detailed_analysis_Ok df Hcols) as (high & recs & _ & Hrecs & ->).
  eexists. split; [reflexivity |].
  cbn [anomaly_patterns recommendations].
  rewrite (generate_recommendations_checks df) in Hrecs
    by (apply (has_columns_incl df _ _ Hcols); cbn; tauto).
  injection Hrecs as <-.
  match goal with
  | |- context [(if ?c1 then _ else _) ++ (if ?c2 then _ else _)
                ++ (if ?c3 then _ else _) ++ (if ?c4 then _ else _)] =>
      destruct (recommendations_of_checks c1 c2 c3 c4)
        as (_ & _ & H1 & H2 & H3 & H4)
  end.
  intros a (row & <- & Hrow)%in_map_iff.
  apply filter_In in Hrow as [Hrow _].
  destruct (unusual_patterns_spec row) as (P1 & P2 & P3 & P4).
  cbn [unusual_patterns spec_anomaly_info].
  split; [| split; [| split]].
  - intros Hp%P1. apply H1, existsb_exists. exists (request_count row).
    split; [apply in_map_iff; eauto | exact Hp].
  - intros Hp%P2. apply H4, existsb_exists.
    exists (avg_time_between_requests row).
    split; [apply in_map_iff; eauto | exact Hp].
  - intros Hp%P3. apply H3, existsb_exists. exists (error_ratio row).
    split; [apply in_map_iff; eauto | exact Hp].
  - intros Hp%P4. apply H2, existsb_exists. exists (user_agent_count row).
    split; [apply in_map_iff; eauto | exact Hp].
Qed.

Lemma patterns_bring_recommendations_witness :
  exists analysis,
    get_detailed_analysis sample_results = Ok analysis
    /\ forall a, In a (anomaly_patterns analysis) ->
         In "High error rate" (unusual_patterns a) ->
         In investigate_errors (recommendations analysis).
Proof.
  destruct (patterns_bring_recommendations sample_results)
    as (analysis & Hrun & Hall); [vm_compute; reflexivity |].
  exists analysis. split; [exact Hrun |].
  intros a Ha. apply (Hall a Ha).
Defined.

(** ** [_generate_recommendations] without a column *)

(** X13: [_generate_recommendations] returns a list exactly when the
    frame has the four columns it reads; otherwise it raises [KeyError]
    for the first of them, in the order request_count, user_agent_count,
    error_ratio, avg_time_between_requests, that the frame lacks. *)
Theorem generate_recommendations_missing_column (df : DataFrame Result) :
  (has_columns df
     ["request_count"; "user_agent_count"; "error_ratio";
      "avg_time_between_requests"] = true <->
   exists recs, _generate_recommendations df = Ok recs)
  /\ (has_columns df
        ["request_count"; "user_agent_count"; "error_ratio";
         "avg_time_between_requests"] = false ->
      exists before key after,
        ["request_count"; "user_agent_count"; "error_ratio";
         "avg_time_between_requests"] = before ++ key :: after
        /\ has_columns df before = true
        /\ (key ∉ columns df)
        /\ _generate_recommendations df = Raise (KeyError key)).
Proof.
  unfold _generate_recommendations, get_column, has_columns.
  cbn [forallb].
  destruct (decide ("request_count" ∈ columns df)) as [H1 | H1].
  2:{ rewrite (bool_decide_eq_false_2 _ H1). cbn [mbind result_bind andb].
      split; [split; [discriminate | intros [recs Hr]; discriminate Hr] |].
      intros _. exists [], "request_count", ["user_agent_count"; "error_ratio";
                                            "avg_time_between_requests"].
      repeat split; [exact H1]. }
  rewrite (bool_decide_eq_true_2 _ H1). cbn [mbind result_bind andb].
  destruct (decide ("user_agent_count" ∈ columns df)) as [H2 | H2].
  2:{ rewrite (bool_decide_eq_false_2 _ H2). cbn [mbind result_bind andb].
      split; [split; [discriminate | intros [recs Hr]; discriminate Hr] |].
      intros _. exists ["request_count"], "user_agent_count",
                       ["error_ratio"; "avg_time_between_requests"].
      cbn [forallb]. rewrite (bool_decide_eq_true_2 _ H1).
      repeat split; [exact H2]. }
  rewrite (bool_decide_eq_true_2 _ H2). cbn [mbind result_bind andb].
  destruct (decide ("error_ratio" ∈ columns df)) as [H3 | H3].
  2:{ rewrite (bool_decide_eq_false_2 _ H3). cbn [mbind result_bind andb].
      split; [split; [discriminate | intros [recs Hr]; discriminate Hr] |].
      intros _. exists ["request_count"; "user_agent_count"], "error_ratio",
                       ["avg_time_between_requests"].
      cbn [forallb].
      rewrite (bool_decide_eq_true_2 _ H1), (bool_decide_eq_true_2 _ H2).
      repeat split; [exact H3]. }
  rewrite (bool_decide_eq_true_2 _ H3). cbn [mbind result_bind andb].
  destruct (decide ("avg_time_between_requests" ∈ columns df)) as [H4 | H4].
  2:{ rewrite (bool_decide_eq_false_2 _ H4). cbn [mbind result_bind andb].
      split; [split; [discriminate | intros [recs Hr]; discriminate Hr] |].
      intros _. exists ["request_count"; "user_agent_count"; "error_ratio"],
                       "avg_time_between_requests", [].
      cbn [forallb].
      rewrite (bool_decide_eq_true_2 _ H1), (bool_decide_eq_true_2 _ H2),
        (bool_decide_eq_true_2 _ H3).
      repeat split; [exact H4]. }
  rewrite (bool_decide_eq_true_2 _ H4). cbn [mbind result_bind andb].
  split; [| discriminate].
  split; [intros _; eexists; reflexivity | reflexivity].
Qed.

(** ** The pipeline on a batch that is not empty *)

Lemma size_list_to_set_remove_dups (xs : list Z) :
  size (list_to_set xs : gset Z) = length (remove_dups xs).
Proof.
  rewrite <- (size_list_to_set (C := gset Z) (remove_dups xs))
    by apply NoDup_remove_dups.
  f_equal. apply set_eq. intros x.
  now rewrite !elem_of_list_to_set, elem_of_remove_dups.
Qed.

Lemma length_filter_ne (x : Z) (l : list Z) :
  NoDup l ->
  (length (filter (fun y => y ≠ x) l)
   + (if bool_decide (x ∈ l) then 1 else 0) = length l)%nat.
Proof.
  induction 1 as [| y l Hy Hnd IH]; [reflexivity |].
  rewrite filter_cons. destruct (decide (y ≠ x)) as [Hne | Heq].
  - cbn [length].
    destruct (decide (x ∈ l)) as [Hin | Hin].
    + rewrite (bool_decide_eq_true_2 _ Hin) in IH.
      rewrite (bool_decide_eq_true_2 (x ∈ y :: l)); [lia | now right].
    + rewrite (bool_decide_eq_false_2 _ Hin) in IH.
      rewrite (bool_decide_eq_false_2 (x ∈ y :: l)); [lia |].
      intros [-> | H']%elem_of_cons; [now apply Hne | contradiction].
  - apply dec_stable in Heq. subst y.
    rewrite (bool_decide_eq_false_2 _ Hy) in IH.
    rewrite (bool_decide_eq_true_2 (x ∈ x :: l)); [| left].
    cbn [length]. lia.
Qed.

(** The number of entries of the cluster report is the [cluster_count] of
    the metrics. *)
Lemma len_cluster_ids (df : DataFrame Result) :
  len (cluster_ids df)
  = len_set_Z (map cluster_label (records df))
    - (if bool_decide (-1 ∈ map cluster_label (records df)) then 1 else 0).
Proof.
  unfold cluster_ids, len, len_set_Z.
  set (labels := map cluster_label (records df)).
  pose proof (length_filter_ne (-1) (merge_sort Z.le (remove_dups labels)))
    as Hlen.
  rewrite merge_sort_Permutation in Hlen at 1.
  specialize (Hlen (NoDup_remove_dups labels)).
  rewrite (Permutation_length (merge_sort_Permutation Z.le (remove_dups labels)))
    in Hlen.
  rewrite size_list_to_set_remove_dups.
  assert (Hmem : bool_decide (-1 ∈ merge_sort Z.le (remove_dups labels))
                 = bool_decide (-1 ∈ labels)).
  { apply bool_decide_ext.
    now rewrite merge_sort_Permutation, elem_of_remove_dups. }
  rewrite Hmem in Hlen. destruct (bool_decide (-1 ∈ labels)); lia.
Qed.

Lemma cluster_sizes_sum (df : DataFrame Result) :
  sum_Z (map cluster_size (map (cluster_info_of df) (cluster_ids df)))
  = sum_1_for (fun row => negb (cluster_label row =? -1)) (records df).
Proof.
  rewrite map_map.
  rewrite (map_ext _ (fun label =>
             sum_1_for (fun row => bool_decide (cluster_label row = label))
               (records df))).
  - rewrite (sum_Z_partition cluster_label (cluster_ids df) (records df)
               (NoDup_StronglySorted_lt _ (cluster_ids_sorted df))).
    apply sum_1_for_ext_In. intros row Hrow.
    destruct (Z.eqb_spec (cluster_label row) (-1)) as [Heq | Hne]; cbn [negb].
    + apply bool_decide_eq_false_2.
      intros Hin%list_elem_of_In%cluster_ids_spec. now destruct Hin.
    + apply bool_decide_eq_true_2, list_elem_of_In, cluster_ids_spec. eauto.
  - intros label. unfold cluster_info_of.
    cbn [cluster_size select_rows records]. rewrite len_List_filter.
    apply sum_1_for_ext. intros row.
    destruct (Z.eqb_spec (cluster_label row) label) as [Heq | Hne].
    + now rewrite (bool_decide_eq_true_2 _ Heq).
    + now rewrite (bool_decide_eq_false_2 _ Hne).
Qed.

Lemma has_analysis_keys (rows : list Result) :
  has_columns {| columns := result_columns; records := rows |} analysis_keys
  = true.
Proof. reflexivity. Qed.

Lemma columns_extract_features (np_std : list Q -> Q) (logs : list Log) :
  logs <> [] -> columns (extract_features np_std logs) = feature_keys.
Proof.
  intros Hne. unfold extract_features, pd_DataFrame. cbn [columns].
  rewrite fold_left_append_map. cbn [app].
  destruct logs as [| log logs']; [congruence |].
  pose proof (ip_set_elem (log :: logs') log (or_introl eq_refl)) as Hin.
  destruct (ip_set (log :: logs')); [| reflexivity].
  now apply not_elem_of_nil in Hin.
Qed.

Lemma len_ip_set (logs : list Log) : len (ip_set logs) = len_set (map log_ip logs).
Proof. reflexivity. Qed.

Section PipelineFacts.

Variable np_std : list Q -> Q.
Variables ScalerFit ForestFit ClusterFit : Type.
Variable scaler_fit_transform
  : list (list Q) -> result (ScalerFit * list (list Q)).
Variable isolation_forest_fit_predict
  : IsolationForest -> list (list Q) -> result (ForestFit * list Z).
Variable dbscan_fit_predict
  : DBSCAN -> list (list Q) -> result (ClusterFit * list Z).

(** X14: on a batch that is not empty, when the scaler and the two
    detectors return and each detector gives one label per address, the
    pipeline returns. Its result frame has one row for each address of the
    batch and for no other; [total_ips] is the number of distinct
    addresses; the anomaly report has [anomaly_count] entries and the
    cluster report [cluster_count] entries; the cluster sizes and
    [noise_points] add up to [total_ips]; and the anomaly report and the
    high-frequency list name addresses of the batch only. *)
Theorem pipeline_on_batch now logs self
    fit1 X_scaled fit2 if_predictions fit3 dbscan_labels :
  logs <> [] ->
  scaler_fit_transform
    (select_columns (extract_features np_std logs)
       (numeric_columns (extract_features np_std logs)))
  = Ok (fit1, X_scaled) ->
  isolation_forest_fit_predict (isolation_forest self) X_scaled
  = Ok (fit2, if_predictions) ->
  dbscan_fit_predict (dbscan self) X_scaled = Ok (fit3, dbscan_labels) ->
  len if_predictions = len (records (extract_features np_std logs)) ->
  len dbscan_labels = len (records (extract_features np_std logs)) ->
  exists results_df metrics analysis self',
    run_pipeline np_std scaler_fit_transform isolation_forest_fit_predict
      dbscan_fit_predict now logs self
    = (Ok (results_df, metrics, analysis), self')
    /\ NoDup (map (fun row : Result => ip row) (records results_df))
    /\ (forall addr,
          In addr (map (fun row : Result => ip row) (records results_df))
          <-> In addr (map log_ip logs))
    /\ total_ips metrics = len_set (map log_ip logs)
    /\ len (anomaly_patterns analysis) = anomaly_count metrics
    /\ len (pattern_clusters analysis) = cluster_count metrics
    /\ sum_Z (map cluster_size (pattern_clusters analysis))
       + noise_points metrics = total_ips metrics
    /\ (forall a, In a (anomaly_patterns analysis) ->
          In (anomaly_ip a) (map log_ip logs))
    /\ (forall row : Result, In row (high_frequency_ips analysis) ->
          In (ip row) (map log_ip logs)).
Proof.
  intros Hne Hs Hi Hd Hlen1 Hlen2. unfold run_pipeline.
  rewrite (analyze_patterns_fitted _ _ _ _ _ _ now
             (extract_features np_std logs) self _ _ _ _ _ _ Hs Hi Hd).
  unfold assign_labels. rewrite Hlen1, Hlen2, Z.eqb_refl. cbn [negb].
  rewrite (columns_extract_features np_std logs Hne).
  fold result_columns.
  set (rows := zip_labels (records (extract_features np_std logs))
                 if_predictions dbscan_labels).
  destruct (zip_labels_spec (records (extract_features np_std logs))
              if_predictions dbscan_labels)
    as (Hf & Ha & Hc); [now apply len_eq_length | now apply len_eq_length |].
  fold rows in Hf, Ha, Hc.
  destruct (get_detailed_analysis_Ok
              {| columns := result_columns; records := rows |}
              (has_analysis_keys rows))
    as (high & recs & Hhigh & _ & ->).
  assert (Hips : map (fun row : Result => ip row) rows = ip_set logs).
  { rewrite <- (ips_extract_features np_std logs), <- Hf, map_map.
    reflexivity. }
  assert (Hbatch : forall addr, In addr (ip_set logs) <-> In addr (map log_ip logs)).
  { intros addr. rewrite ip_set_spec, in_map_iff.
    split; intros (log & H1 & H2); exists log; split; assumption. }
  assert (Hrow : forall row : Result, In row rows -> In (ip row) (map log_ip logs)).
  { intros row Hin. apply Hbatch. rewrite <- Hips.
    apply (in_map (fun row : Result => ip row)), Hin. }
  do 4 eexists. split; [reflexivity |].
  cbn [records total_ips anomaly_count cluster_count noise_points
         anomaly_patterns pattern_clusters high_frequency_ips].
  split; [rewrite Hips; apply ip_set_NoDup |].
  split; [intros addr; rewrite Hips; apply Hbatch |].
  split.
  { rewrite <- len_ip_set, <- Hips, len_map, <- (len_map feature), Hf.
    reflexivity. }
  split.
  { rewrite len_map, len_List_filter.
    now rewrite <- (sum_1_for_map anomaly_score (fun p => p =? -1)), Ha. }
  split.
  { rewrite len_map, len_cluster_ids. cbn [records]. now rewrite Hc. }
  split.
  { rewrite cluster_sizes_sum. cbn [records].
    rewrite <- Hc, sum_1_for_map.
    rewrite Z.add_comm.
    rewrite (sum_1_for_complement (fun row : Result => cluster_label row =? -1)
               (fun row : Result => negb (cluster_label row =? -1)) rows)
      by reflexivity.
    now rewrite <- (len_map feature), Hf. }
  split.
  { intros a (row & <- & Hin)%in_map_iff.
    apply filter_In in Hin as [Hin _]. cbn [anomaly_ip spec_anomaly_info].
    now apply Hrow. }
  intros row Hin. apply Hrow.
  unfold _get_high_frequency_ips in Hhigh.
  rewrite get_column_Ok in Hhigh by reflexivity.
  cbn [mbind result_bind records] in Hhigh. injection Hhigh as <-.
  now apply filter_In in Hin as [Hin _].
Qed.

End PipelineFacts.

Lemma pipeline_on_batch_witness :
  exists results_df metrics analysis self',
    run_pipeline sample_np_std sample_scaler sample_forest sample_dbscan 0
      sample_logs (__init__ unit unit unit)
    = (Ok (results_df, metrics, analysis), self')
    /\ total_ips metrics = len_set (map log_ip sample_logs)
    /\ len (anomaly_patterns analysis) = anomaly_count metrics
    /\ len (pattern_clusters analysis) = cluster_count metrics.
Proof.
  edestruct (pipeline_on_batch sample_np_std unit unit unit
               sample_scaler sample_forest sample_dbscan 0 sample_logs
               (__init__ unit unit unit))
    as (results_df & metrics & analysis & self' & Hrun & _ & _ & Htotal
        & Hanomalies & Hclusters & _);
    [discriminate | reflexivity | reflexivity | reflexivity
    | vm_compute; reflexivity | vm_compute; reflexivity |].
  exists results_df, metrics, analysis, self'. repeat split; assumption.
Defined.

(** ** [_get_high_frequency_ips] flags few addresses *)

Lemma sublist_List_filter {A : Type} (p : A -> bool) (l : list A) :
  sublist (List.filter p l) l.
Proof.
  induction l as [| x l IH]; [constructor |].
  cbn [List.filter]. destruct (p x); now constructor.
Qed.

Lemma Qsum_map_ge_In {A : Type} (g : A -> Q) (l : list A) (x : A) :
  (forall y, (0 <= g y)%Q) -> In x l -> (g x <= Qsum (map g l))%Q.
Proof.
  intros Hpos. induction l as [| y l IH]; [intros [] |].
  cbn [map Qsum fold_right]. fold (Qsum (map g l)).
  assert (H0 : (0 <= Qsum (map g l))%Q).
  { apply Qsum_nonneg. intros z (w & <- & _)%in_map_iff. apply Hpos. }
  intros [-> | Hin].
  - lra.
  - specialize (IH Hin). pose proof (Hpos y). lra.
Qed.

Lemma Qsum_map_ge_filter {A : Type} (g : A -> Q) (p : A -> bool) (b : Q)
    (l : list A) :
  (forall y, (0 <= g y)%Q) ->
  (forall y, In y l -> p y = true -> (b <= g y)%Q) ->
  (inject_Z (len (List.filter p l)) * b <= Qsum (map g l))%Q.
Proof.
  intros Hpos. induction l as [| y l IH]; intros Hb.
  - change (0 * b <= 0)%Q. lra.
  - cbn [map Qsum fold_right List.filter]. fold (Qsum (map g l)).
    assert (IH' : (inject_Z (len (List.filter p l)) * b <= Qsum (map g l))%Q).
    { apply IH. intros z Hz. apply Hb. now right. }
    destruct (p y) eqn:Hp.
    + unfold len in *. cbn [length]. rewrite Nat2Z.inj_succ, <- Z.add_1_l.
      rewrite inject_Z_plus.
      pose proof (Hb y (or_introl eq_refl) Hp) as Hy.
      change (inject_Z 1) with 1%Q.
      setoid_replace ((1 + inject_Z (Z.of_nat (length (List.filter p l)))) * b)%Q
        with (b + inject_Z (Z.of_nat (length (List.filter p l))) * b)%Q
        using relation Qeq by ring.
      lra.
    + pose proof (Hpos y). lra.
Qed.

Lemma List_filter_false {A : Type} (p : A -> bool) (l : list A) :
  (forall x, p x = false) -> List.filter p l = [].
Proof.
  intros Hp. induction l as [| x l IH]; [reflexivity |].
  cbn [List.filter]. now rewrite Hp.
Qed.

(** The flagged rows, when the mean and the variance are numbers. *)
Lemma high_frequency_quarter (rows : list Result) (m v : Q) :
  series_mean (counts_of rows) = Some m ->
  series_var (counts_of rows) = Some v ->
  4 * len (List.filter
             (fun row : Result => exceeds_b (Some m) (Some v) (request_count row))
             rows)
  < len rows.
Proof.
  intros Hm Hv.
  set (p := fun row : Result => exceeds_b (Some m) (Some v) (request_count row)).
  set (g := fun row : Result =>
              ((m - inject_Z (request_count row))
               * (m - inject_Z (request_count row)))%Q).
  assert (Hpos : forall row, (0 <= g row)%Q) by (intros row; apply Qsquare_nonneg).
  pose proof (series_var_nonneg _ _ Hv) as Hv0.
  unfold series_var in Hv. rewrite len_counts_of in Hv.
  destruct (Z.ltb_spec (len rows) 2) as [Hlt | Hge]; [discriminate |].
  injection Hv as Hv.
  assert (Hmean : m = (Qsum (counts_of rows) / inject_Z (len (counts_of rows)))%Q).
  { unfold series_mean in Hm. destruct (counts_of rows); [discriminate |].
    now injection Hm. }
  assert (HS : squared_deviations (counts_of rows) = Qsum (map g rows)).
  { unfold squared_deviations. rewrite <- Hmean. unfold counts_of.
    rewrite map_map. reflexivity. }
  assert (Hn1 : (0 < inject_Z (len rows - 1))%Q) by (unfold Qlt; simpl; lia).
  assert (HSv : (Qsum (map g rows) == v * inject_Z (len rows - 1))%Q).
  { rewrite <- HS, <- Hv. field. intros H0. rewrite H0 in Hn1.
    now apply Qlt_irrefl in Hn1. }
  assert (Hflag : forall row, In row rows -> p row = true ->
                    (4 * v < g row)%Q).
  { intros row _ Hp. unfold p, exceeds_b in Hp.
    apply andb_true_iff in Hp as [_ Hp%Qltb_lt]. unfold g.
    setoid_replace ((m - inject_Z (request_count row))
                    * (m - inject_Z (request_count row)))%Q
      with ((inject_Z (request_count row) - m)
            * (inject_Z (request_count row) - m))%Q
        using relation Qeq by ring.
    exact Hp. }
  destruct (Qlt_le_dec 0 v) as [Hvpos | Hvzero].
  - pose proof (Qsum_map_ge_filter g p (4 * v) rows Hpos) as Hsum.
    assert (Hle : (inject_Z (len (List.filter p rows)) * (4 * v)
                   <= v * inject_Z (len rows - 1))%Q).
    { rewrite <- HSv. apply Hsum. intros row Hin Hp.
      apply Qlt_le_weak. now apply Hflag. }
    assert (Hk : (inject_Z (4 * len (List.filter p rows))
                  <= inject_Z (len rows - 1))%Q).
    { rewrite inject_Z_mult. change (inject_Z 4) with 4%Q.
      apply (Qmult_le_l _ _ v Hvpos).
      setoid_replace (v * (4 * inject_Z (len (List.filter p rows))))%Q
        with (inject_Z (len (List.filter p rows)) * (4 * v))%Q
        using relation Qeq by ring.
      exact Hle. }
    rewrite <- Zle_Qle in Hk. lia.
  - assert (Hnone : List.filter p rows = []).
    { destruct (List.filter p rows) as [| row rest] eqn:Hf; [reflexivity |].
      exfalso.
      assert (Hin : In row (List.filter p rows)) by (rewrite Hf; now left).
      apply filter_In in Hin as [Hin Hp].
      pose proof (Hflag row Hin Hp) as H1.
      pose proof (Qsum_map_ge_In g rows row Hpos Hin) as H2.
      rewrite HSv in H2.
      assert (Hv00 : (v == 0)%Q) by (apply Qle_antisym; assumption).
      rewrite Hv00 in H1, H2. lra. }
    rewrite Hnone. unfold len at 1. cbn [length]. lia.
Qed.

(** X15: on a frame that has the request_count column,
    [_get_high_frequency_ips] returns rows of the frame in their order,
    each with a request count above the mean, and fewer than a quarter of
    the rows of a frame that is not empty. *)
Theorem high_frequency_few (df : DataFrame Result) :
  bool_decide ("request_count" ∈ columns df) = true ->
  exists high,
    _get_high_frequency_ips df = Ok high
    /\ sublist high (records df)
    /\ (forall row : Result, In row high ->
          (Qsum (counts_of (records df)) / inject_Z (len (records df))
           < inject_Z (request_count row))%Q)
    /\ (records df <> [] -> 4 * len high < len (records df)).
Proof.
  intros Hcol. rewrite (get_high_frequency_ips_decide df Hcol).
  eexists. split; [reflexivity |].
  split; [apply sublist_List_filter |].
  destruct (series_mean (counts_of (records df))) as [m |] eqn:Hm.
  2:{ split; [intros row [_ Hp]%filter_In; discriminate Hp |].
      intros Hne. rewrite List_filter_false by reflexivity.
      destruct (records df); [congruence |]. unfold len. cbn [length]. lia. }
  destruct (series_var (counts_of (records df))) as [v |] eqn:Hv.
  2:{ split; [intros row [_ Hp]%filter_In; discriminate Hp |].
      intros Hne. rewrite List_filter_false by reflexivity.
      destruct (records df); [congruence |]. unfold len. cbn [length]. lia. }
  split.
  - intros row [_ Hp]%filter_In. unfold exceeds_b in Hp.
    apply andb_true_iff in Hp as [Hp%Qltb_lt _].
    unfold series_mean in Hm.
    destruct (counts_of (records df)) as [| c cs] eqn:Hcs; [discriminate |].
    injection Hm as <-. rewrite <- Hcs, len_counts_of in Hp. exact Hp.
  - intros _. now apply high_frequency_quarter.
Qed.

Lemma high_frequency_few_witness :
  exists high,
    _get_high_frequency_ips sample_counts = Ok high
    /\ sublist high (records sample_counts)
    /\ (records sample_counts <> [] ->
        4 * len high < len (records sample_counts)).
Proof.
  destruct (high_frequency_few sample_counts)
    as (high & Hrun & Hsub & _ & Hfew); [vm_compute; reflexivity |].
  exists high. repeat split; assumption.
Defined.
